(** * ClaimsMCP: the Claimify extraction server

    A shallow embedding of [claimify_server.py] (the tool handler [call_tool],
    as a function and as the MCP server runs it, and the start-up routine
    [main]), of [setup.py] and of [test_claimify.py], together with the
    extraction pipeline the server drives.  The modules [pipeline],
    [llm_client] and [prompts] are imported by the server and by
    [test_claimify.py] but are not among the repository's files: the handler
    is embedded with what it calls of them as a parameter, and their
    behaviour is modelled from the specification where a property needs it;
    every such definition says so in its documentation.

    Python [str] values are modelled as [string]; each [ascii] stands for one
    code point below 256.  Python [int] values are modelled as [Z]. *)

From Stdlib Require Import String Ascii ZArith List Lia Bool.
From stdpp Require Import base option strings gmap list pretty.

Local Open Scope string_scope.
Local Open Scope Z_scope.

(** ** Python values shared by every module *)

(** An exception instance: its class name and [str(e)]. *)
Record exn := Exception { exn_class : string; exn_str : string }.

(** The outcome of evaluating a Python expression: a value or a raised
    exception. *)
Inductive result (A : Type) : Type :=
| Ok (a : A)
| Raise (e : exn).
Arguments Ok {A} a.
Arguments Raise {A} e.

Definition LF : ascii := "010"%char.
Definition DQUOTE : ascii := "034"%char.
Definition BACKSLASH : ascii := "092"%char.

(** [ch c] is the one-character string. *)
Definition ch (c : ascii) : string := String c EmptyString.

(** [str.lower()] on one code point below 256: the ASCII capitals and the
    Latin-1 capitals (U+00C0..U+00DE but the multiplication sign U+00D7) move
    up by 32. *)
Definition lower_char (c : ascii) : ascii :=
  let n := N_of_ascii c in
  if ((65 <=? n) && (n <=? 90))%N then ascii_of_N (n + 32)
  else if ((192 <=? n) && (n <=? 222) && negb (n =? 215))%N
       then ascii_of_N (n + 32)
  else c.

Fixpoint lower (s : string) : string :=
  match s with
  | EmptyString => EmptyString
  | String c rest => String (lower_char c) (lower rest)
  end.

(** [str.isspace()] on one code point below 256: the ASCII whitespace and
    separators, NEL (U+0085) and the no-break space (U+00A0). *)
Definition isspace (c : ascii) : bool :=
  let n := N_of_ascii c in
  (((9 <=? n) && (n <=? 13)) || ((28 <=? n) && (n <=? 32))
   || (n =? 133) || (n =? 160))%N.

(** [not s.strip()]: the string is empty or holds only whitespace. *)
Fixpoint is_blank (s : string) : bool :=
  match s with
  | EmptyString => true
  | String c rest => isspace c && is_blank rest
  end.

(** [s.split('\n')]: never empty, the last piece is what follows the last
    line break. *)
Fixpoint split_lines (s : string) : list string :=
  match s with
  | EmptyString => [EmptyString]
  | String c rest =>
      if Ascii.eqb c LF then EmptyString :: split_lines rest
      else match split_lines rest with
           | [] => [ch c]
           | l :: ls => String c l :: ls
           end
  end.

(** ['\n'.join(pieces)]. *)
Definition join_lines (pieces : list string) : string :=
  String.concat (ch LF) pieces.

(** The string holds no line break. *)
Fixpoint no_line_break (s : string) : bool :=
  match s with
  | EmptyString => true
  | String c rest => negb (Ascii.eqb c LF) && no_line_break rest
  end.

(** The number of line breaks the string holds. *)
Fixpoint line_breaks (s : string) : nat :=
  match s with
  | EmptyString => 0
  | String c rest => (if Ascii.eqb c LF then 1 else 0) + line_breaks rest
  end.

(** Truthiness of an optional string, as [os.getenv(k)] is tested by [not]:
    [None] and the empty string are falsy. *)
Definition truthy (v : option string) : bool :=
  match v with
  | None => false
  | Some EmptyString => false
  | Some _ => true
  end.

(** ** [json.dumps(claims, indent=2)] for a list of strings *)

Definition hex_digit (n : N) : ascii :=
  if (n <? 10)%N then ascii_of_N (48 + n) else ascii_of_N (87 + n).

(** The encoder's escape of one code point, [ensure_ascii=True]: the two
    characters with a short escape of their own, the five named control
    characters, and [\u00xx] for everything else outside [' '..'~']. *)
Definition json_escape_char (c : ascii) : string :=
  let n := N_of_ascii c in
  if (n =? 34)%N then String BACKSLASH (ch DQUOTE)
  else if (n =? 92)%N then String BACKSLASH (ch BACKSLASH)
  else if (n =? 10)%N then String BACKSLASH "n"
  else if (n =? 13)%N then String BACKSLASH "r"
  else if (n =? 9)%N then String BACKSLASH "t"
  else if (n =? 12)%N then String BACKSLASH "f"
  else if (n =? 8)%N then String BACKSLASH "b"
  else if ((32 <=? n) && (n <=? 126))%N then ch c
  else String BACKSLASH
         ("u00" +:+ String (hex_digit (n / 16)) (ch (hex_digit (n mod 16)))).

Fixpoint json_escape (s : string) : string :=
  match s with
  | EmptyString => EmptyString
  | String c rest => json_escape_char c +:+ json_escape rest
  end.

Definition json_string (s : string) : string :=
  String DQUOTE (json_escape s +:+ ch DQUOTE).

(** What stands between two elements with [indent=2]: the comma, the line
    break, and the indentation of the next element. *)
Definition json_separator : string := "," +:+ ch LF +:+ "  ".

(** The array of strings with [indent=2]: ["[]"] when empty, otherwise one
    element per line, two spaces deep, separated by [","] at the line end. *)
Definition json_dumps (claims : list string) : string :=
  match claims with
  | [] => "[]"
  | _ =>
      "[" +:+ ch LF +:+ "  "
      +:+ String.concat json_separator (map json_string claims)
      +:+ ch LF +:+ "]"
  end.

(** ** Reading a JSON array of strings *)

(** JSON's insignificant whitespace. *)
Definition is_json_ws (c : ascii) : bool :=
  let n := N_of_ascii c in
  ((n =? 32) || (n =? 9) || (n =? 10) || (n =? 13))%N.

Definition hex_value (c : ascii) : option N :=
  let n := N_of_ascii c in
  if ((48 <=? n) && (n <=? 57))%N then Some (n - 48)%N
  else if ((97 <=? n) && (n <=? 102))%N then Some (n - 87)%N
  else if ((65 <=? n) && (n <=? 70))%N then Some (n - 55)%N
  else None.

(** The code point of [\uh1h2h3h4], when it is below 256. *)
Definition unicode_escape (h1 h2 h3 h4 : ascii) : option ascii :=
  match hex_value h1, hex_value h2, hex_value h3, hex_value h4 with
  | Some a, Some b, Some c, Some d =>
      if ((a =? 0) && (b =? 0))%N then Some (ascii_of_N (16 * c + d)) else None
  | _, _, _, _ => None
  end.

(** The character a two-character escape stands for. *)
Definition simple_escape (c : ascii) : option ascii :=
  let n := N_of_ascii c in
  if (n =? 34)%N then Some DQUOTE
  else if (n =? 92)%N then Some BACKSLASH
  else if (n =? 47)%N then Some "/"%char
  else if (n =? 98)%N then Some "008"%char
  else if (n =? 102)%N then Some "012"%char
  else if (n =? 110)%N then Some "010"%char
  else if (n =? 114)%N then Some "013"%char
  else if (n =? 116)%N then Some "009"%char
  else None.

(** Where the reader is: before the array, after its opening bracket, inside
    a string, after a string, after a comma, after the closing bracket. *)
Inductive json_mode :=
| AtStart | AtFirst | InString | AfterString | AfterComma | AtEnd.

(** One more character in front of the string being read. *)
Definition push (c : ascii) (r : option (list string)) : option (list string) :=
  match r with
  | Some (x :: xs) => Some (String c x :: xs)
  | _ => None
  end.

(** The reader: in mode [InString] the head of the result is what is left of
    the string being read. *)
Fixpoint json_scan (mode : json_mode) (s : string) : option (list string) :=
  match s with
  | EmptyString => match mode with AtEnd => Some [] | _ => None end
  | String c rest =>
      match mode with
      | InString =>
          if Ascii.eqb c DQUOTE then
            match json_scan AfterString rest with
            | Some xs => Some (EmptyString :: xs)
            | None => None
            end
          else if Ascii.eqb c BACKSLASH then
            match rest with
            | String e rest' =>
                match simple_escape e with
                | Some d => push d (json_scan InString rest')
                | None =>
                    if Ascii.eqb e "u"%char then
                      match rest' with
                      | String h1 (String h2 (String h3 (String h4 rest''))) =>
                          match unicode_escape h1 h2 h3 h4 with
                          | Some d => push d (json_scan InString rest'')
                          | None => None
                          end
                      | _ => None
                      end
                    else None
                end
            | EmptyString => None
            end
          else if (N_of_ascii c <? 32)%N then None
          else push c (json_scan InString rest)
      | AtStart =>
          if is_json_ws c then json_scan AtStart rest
          else if Ascii.eqb c "["%char then json_scan AtFirst rest
          else None
      | AtFirst =>
          if is_json_ws c then json_scan AtFirst rest
          else if Ascii.eqb c "]"%char then json_scan AtEnd rest
          else if Ascii.eqb c DQUOTE then json_scan InString rest
          else None
      | AfterString =>
          if is_json_ws c then json_scan AfterString rest
          else if Ascii.eqb c ","%char then json_scan AfterComma rest
          else if Ascii.eqb c "]"%char then json_scan AtEnd rest
          else None
      | AfterComma =>
          if is_json_ws c then json_scan AfterComma rest
          else if Ascii.eqb c DQUOTE then json_scan InString rest
          else None
      | AtEnd => if is_json_ws c then json_scan AtEnd rest else None
      end
  end.

(** [json.loads(text)] when [text] is a JSON array of strings; [None] for any
    other text. *)
Definition json_loads (text : string) : option (list string) :=
  json_scan AtStart text.

(** ** Module [llm_client] *)
Module llm_client.

(** Modelled from the spec: the class [LLMClient] of the module [llm_client],
    which is not among the repository's files.  The spec's StageClient is
    "one operation, request(systemPrompt, userPrompt) -> responseText" that
    may fail with a provider, authentication or network error;
    [test_claimify.py] reads the attributes [provider] and [model] of an
    instance and calls [make_request(system_prompt=..., user_prompt=...)].
    The model the client talks to is a deterministic stand-in. *)
Record LLMClient := {
  provider : string;
  model : string;
  make_request : string -> string -> result string
}.

End llm_client.

(** ** Module [pipeline]

    The module [pipeline] ([split_into_sentences],
    [create_context_for_sentence], class [ClaimifyPipeline]) is not among the
    repository's files.  The definitions below are modelled from sections 3,
    4, 6 and 7 of the specification. *)
Module pipeline.
Import llm_client.

(** Modelled from the spec: the per-stage outcome of section 3, a tagged
    variant [Proceed(payload) | Reject(reason) | Unparseable(rawResponse)]. *)
Inductive StageVerdict (A : Type) : Type :=
| Proceed (payload : A)
| Reject (reason : string)
| Unparseable (rawResponse : string).
Arguments Proceed {A} payload.
Arguments Reject {A} reason.
Arguments Unparseable {A} rawResponse.

Inductive stage := Selection | Disambiguation | Decomposition.

(** Modelled from the spec: one outbound request to the model (section 6),
    tagged with the stage that issued it and the index of the sentence it was
    issued for. *)
Record model_call := ModelCall {
  call_stage : stage;
  call_sentence : nat;
  call_system : string;
  call_user : string
}.

(** Modelled from the spec: what the pipeline is configured with.  The three
    system prompts are opaque strings (the names are those [test_claimify.py]
    imports from [prompts]); how a stage lays out its user content and how it
    reads the model's answer is not fixed by the spec, so both are fields; a
    reader may raise.  [sent_tokenize] is the trained sentence-boundary
    detector the segmenter relies on, and the two window sizes are the number
    of neighbouring sentences shown to the stages. *)
Record Config := {
  SELECTION_SYSTEM_PROMPT : string;
  DISAMBIGUATION_SYSTEM_PROMPT : string;
  DECOMPOSITION_SYSTEM_PROMPT : string;
  selection_content : string -> string -> string -> string;
  disambiguation_content : string -> string -> string -> string;
  decomposition_content : string -> string -> string;
  parse_selection : string -> result (StageVerdict bool);
  parse_disambiguation : string -> result (StageVerdict string);
  parse_decomposition : string -> result (StageVerdict (list string));
  sent_tokenize : string -> list string;
  sentences_before : Z;
  sentences_after : Z
}.

(** Modelled from the spec: SentenceSegmenter (4.1).  Explicit line breaks are
    sentence boundaries; within a line the detector finds the boundaries; a
    line that is empty or whitespace-only holds no sentence. *)
Definition split_into_sentences (cfg : Config) (text : string) : list string :=
  flat_map
    (fun line => if is_blank line then [] else sent_tokenize cfg line)
    (split_lines text).

(** Modelled from the spec: the indices the window around [i] covers in a
    document of [n] sentences (section 3),
    [max(0, i-before) .. min(n-1, i+after)], both ends included. *)
Definition window_indices (n i before after : Z) : list Z :=
  let first := Z.max 0 (i - before) in
  let last := Z.min (n - 1) (i + after) in
  seqZ first (last - first + 1).

(** Modelled from the spec: ContextWindowBuilder (3, 4.2).  An index that is
    not a valid index into [sentences] fails with [IndexError]; otherwise the
    sentences of the window, in order, joined one per line. *)
Definition create_context_for_sentence
    (sentences : list string) (index before after : Z) : result string :=
  let n := Z.of_nat (length sentences) in
  if (0 <=? index) && (index <? n) then
    Ok (join_lines
          (omap (fun j => sentences !! Z.to_nat j)
                (window_indices n index before after)))
  else Raise (Exception "IndexError" "list index out of range").

(** Modelled from the spec: a computation of the pipeline, that is the
    requests it sent to the model so far, and a value or the exception that
    stopped it. *)
Definition traced (A : Type) : Type := list model_call * result A.

#[global] Instance traced_ret : MRet traced := fun A a => ([], Ok a).
#[global] Instance traced_bind : MBind traced := fun A B k m =>
  match m with
  | (t, Ok a) => let '(t', r) := k a in ((t ++ t')%list, r)
  | (t, Raise e) => (t, Raise e)
  end.

Definition lift {A} (r : result A) : traced A := ([], r).

(** Modelled from the spec: one request through the client (section 6),
    recorded. *)
Definition request (client : LLMClient) (st : stage) (i : nat)
    (system user : string) : traced string :=
  ([ModelCall st i system user], make_request client system user).

(** Modelled from the spec: SelectionStage (4.3), exactly one request. *)
Definition selection_stage (cfg : Config) (client : LLMClient) (i : nat)
    (context sentence question : string) : traced (StageVerdict bool) :=
  response ← request client Selection i (SELECTION_SYSTEM_PROMPT cfg)
               (selection_content cfg context sentence question);
  lift (parse_selection cfg response).

(** Modelled from the spec: DisambiguationStage (4.4). *)
Definition disambiguation_stage (cfg : Config) (client : LLMClient) (i : nat)
    (context sentence question : string) : traced (StageVerdict string) :=
  response ← request client Disambiguation i (DISAMBIGUATION_SYSTEM_PROMPT cfg)
               (disambiguation_content cfg context sentence question);
  lift (parse_disambiguation cfg response).

(** Modelled from the spec: DecompositionStage (4.5). *)
Definition decomposition_stage (cfg : Config) (client : LLMClient) (i : nat)
    (context disambiguated : string) : traced (StageVerdict (list string)) :=
  response ← request client Decomposition i (DECOMPOSITION_SYSTEM_PROMPT cfg)
               (decomposition_content cfg context disambiguated);
  lift (parse_decomposition cfg response).

(** Modelled from the spec: the terminal states of one sentence's chain
    (4.6): decomposed into claims, rejected by a stage, or stopped at a stage
    whose answer could not be read. *)
Inductive outcome :=
| Decomposed (claims : list string)
| Rejected (at_stage : stage) (reason : string)
| Unparsed (at_stage : stage) (rawResponse : string).

(** Modelled from the spec: the chain of one sentence (4.6).  A verdict other
    than [Proceed] ends the chain: no further stage runs. *)
Definition sentence_chain (cfg : Config) (client : LLMClient)
    (question : string) (sentences : list string) (i : nat)
    (sentence : string) : traced outcome :=
  context ← lift (create_context_for_sentence sentences (Z.of_nat i)
                    (sentences_before cfg) (sentences_after cfg));
  selected ← selection_stage cfg client i context sentence question;
  match selected with
  | Proceed _ =>
      resolved ← disambiguation_stage cfg client i context sentence question;
      match resolved with
      | Proceed rewritten =>
          decomposed ← decomposition_stage cfg client i context rewritten;
          match decomposed with
          | Proceed claims => mret (Decomposed claims)
          | Reject reason => mret (Rejected Decomposition reason)
          | Unparseable raw => mret (Unparsed Decomposition raw)
          end
      | Reject reason => mret (Rejected Disambiguation reason)
      | Unparseable raw => mret (Unparsed Disambiguation raw)
      end
  | Reject reason => mret (Rejected Selection reason)
  | Unparseable raw => mret (Unparsed Selection raw)
  end.

(** A request the chain of sentence [i] may send, given its context: one of
    the three stage requests above, laid out from the context, the sentence
    (or its rewriting) and the question. *)
Definition chain_call (cfg : Config) (question context sentence : string)
    (i : nat) (mc : model_call) : Prop :=
  mc = ModelCall Selection i (SELECTION_SYSTEM_PROMPT cfg)
         (selection_content cfg context sentence question)
  \/ mc = ModelCall Disambiguation i (DISAMBIGUATION_SYSTEM_PROMPT cfg)
            (disambiguation_content cfg context sentence question)
  \/ exists rewritten,
       mc = ModelCall Decomposition i (DECOMPOSITION_SYSTEM_PROMPT cfg)
              (decomposition_content cfg context rewritten).

(** Modelled from the spec: the claims a sentence contributes (4.6, 7).  The
    per-sentence boundary is here: an exception raised inside the chain is
    caught and the sentence yields no claims, as does a chain that did not
    reach [Decomposed]. *)
Definition sentence_claims (r : result outcome) : list string :=
  match r with
  | Ok (Decomposed claims) => claims
  | Ok _ => []
  | Raise _ => []
  end.

(** The chain failed: it raised (ExternalCollaboratorFailure of section 7),
    or a stage could not read the model's answer (StageUnparseable). *)
Definition chain_failed (r : result outcome) : bool :=
  match r with
  | Raise _ => true
  | Ok (Unparsed _ _) => true
  | Ok _ => false
  end.

(** Modelled from the spec: the loop over the sentences in document order,
    [i] being the index of the head of [todo]. *)
Fixpoint run_from (cfg : Config) (client : LLMClient) (question : string)
    (sentences : list string) (i : nat) (todo : list string)
    : list model_call * list string :=
  match todo with
  | [] => ([], [])
  | sentence :: rest =>
      let '(calls, r) := sentence_chain cfg client question sentences i sentence in
      let '(calls', claims') := run_from cfg client question sentences (S i) rest in
      ((calls ++ calls')%list, (sentence_claims r ++ claims')%list)
  end.

(** Modelled from the spec: [run(text, question)] of section 6. *)
Definition run (cfg : Config) (client : LLMClient) (question text : string)
    : list model_call * list string :=
  let sentences := split_into_sentences cfg text in
  run_from cfg client question sentences 0 sentences.

End pipeline.

(** ** Module [claimify_server]: the source file [claimify_server.py] *)
Module claimify_server.
Import llm_client.

(** *** MCP types the handlers return *)

Record TextContent := { type : string; text : string }.

Record property := {
  prop_name : string;
  prop_type : string;
  prop_description : string;
  prop_default : option string
}.

Record schema := {
  schema_type : string;
  properties : list property;
  required : list string
}.

Record Tool := { name : string; description : string; inputSchema : schema }.

(** The literal both the schema and the handler use for an absent question. *)
Definition NO_QUESTION : string := "The user did not provide a question.".

Definition extract_claims_description : string :=
  "Extracts verifiable, decontextualized factual claims from a given text string."
  +:+ ch LF +:+
  "Claims are decontextualized (self-contained) and verifiable. Each sentence is parsed with surrounding sentences as context. Do not call the tool with long texts as it will timeout (expect roughly 10 seconds per sentence)."
  +:+ ch LF +:+
  "If needed, break the text into smaller chunks and call the tool multiple times. Make sure to break in sections with enough context."
  +:+ ch LF +:+ ch LF +:+
  "Example:"
  +:+ ch LF +:+
  "Input: " +:+ ch DQUOTE +:+
  "Apple INC did a fine result last quarter of 2024. The company's revenue increased by 15% due to strong sales."
  +:+ ch DQUOTE +:+ ch LF +:+
  "Output: [" +:+ ch DQUOTE +:+
  "Apple INC's revenue increased by 15% last quarter of 2024"
  +:+ ch DQUOTE +:+ "]".

(** [list_tools()]: the one tool and its input schema. *)
Definition list_tools : list Tool :=
  [ {| name := "extract_claims";
       description := extract_claims_description;
       inputSchema :=
         {| schema_type := "object";
            properties :=
              [ {| prop_name := "text_to_process";
                   prop_type := "string";
                   prop_description :=
                     "The input text string from which to extract claims.";
                   prop_default := None |};
                {| prop_name := "question";
                   prop_type := "string";
                   prop_description :=
                     "An optional question that provides context for the text. This can help in resolving ambiguities during the disambiguation stage.";
                   prop_default := Some NO_QUESTION |} ];
            required := ["text_to_process"] |} |} ].

(** *** Objects of a running server

    Instances live in a store and are referred to by location, so that what
    one invocation of the handler creates can be told apart from what another
    one created.  Allocation appends: the location of a new object is the
    length of the store. *)

Definition loc := nat.

(** Modelled from the spec: the PipelineRun aggregate of section 3 (guiding
    question, input text, sentence list, accumulated claims), with the
    reference to the client the pipeline was constructed with. *)
Record PipelineRun := {
  run_client : loc;
  run_question : string;
  run_text : option string;
  run_sentences : list string;
  run_claims : list string
}.

Inductive object :=
| LLMClientObj (c : LLMClient)
| ClaimifyPipelineObj (p : PipelineRun).

(** The state the handlers run in: the store, and every request sent to the
    model since the server started. *)
Record server_state := {
  heap : list object;
  requests : list pipeline.model_call
}.

(** Modelled from the spec: what the process provides to the handlers, the
    configuration of the pipeline and the constructor of [LLMClient], neither
    of which is among the repository's files.  [LLMClient_init] is the
    outcome of evaluating [LLMClient()] in the process's environment: the
    instance, or the exception its constructor raises ([test_llm_client]
    guards the construction with [try]). *)
Record World := {
  config : pipeline.Config;
  LLMClient_init : result LLMClient
}.

(** A handler body: state in, state out, a value or a raised exception. *)
Definition M (A : Type) : Type := server_state -> server_state * result A.

#[global] Instance M_ret : MRet M := fun A a st => (st, Ok a).
#[global] Instance M_bind : MBind M := fun A B k m st =>
  match m st with
  | (st', Ok a) => k a st'
  | (st', Raise e) => (st', Raise e)
  end.

Definition raise {A} (e : exn) : M A := fun st => (st, Raise e).

(** [try: body  except Exception as e: handler(e)]. *)
Definition try_except {A} (body : M A) (handler : exn -> M A) : M A :=
  fun st =>
    match body st with
    | (st', Ok a) => (st', Ok a)
    | (st', Raise e) => handler e st'
    end.

Definition alloc (o : object) : M loc := fun st =>
  ({| heap := (heap st ++ [o])%list; requests := requests st |},
   Ok (length (heap st))).

(** [LLMClient()]: a new instance in the store, or the constructor's
    exception. *)
Definition LLMClient (W : World) : M loc :=
  match LLMClient_init W with
  | Ok c => alloc (LLMClientObj c)
  | Raise e => raise e
  end.

(** Modelled from the spec: [ClaimifyPipeline(llm_client, question)], a new
    run aggregate holding its two arguments. *)
Definition ClaimifyPipeline (llm_client : loc) (question : string) : M loc :=
  alloc (ClaimifyPipelineObj
           {| run_client := llm_client;
              run_question := question;
              run_text := None;
              run_sentences := [];
              run_claims := [] |}).

Definition AttributeError : exn :=
  Exception "AttributeError" "object has no such attribute".

(** Modelled from the spec: the method [pipeline.run(text)].  It reads the
    instance it is called on and the client that instance refers to, runs the
    pipeline of module [pipeline], and leaves the sentences and the claims in
    the instance. *)
Definition run (W : World) (self : loc) (text_to_process : string)
    : M (list string) := fun st =>
  match heap st !! self with
  | Some (ClaimifyPipelineObj p) =>
      match heap st !! run_client p with
      | Some (LLMClientObj c) =>
          let '(calls, claims) :=
            pipeline.run (config W) c (run_question p) text_to_process in
          ({| heap :=
                <[self := ClaimifyPipelineObj
                            {| run_client := run_client p;
                               run_question := run_question p;
                               run_text := Some text_to_process;
                               run_sentences :=
                                 pipeline.split_into_sentences (config W)
                                   text_to_process;
                               run_claims := claims |}]> (heap st);
              requests := (requests st ++ calls)%list |},
           Ok claims)
      | _ => (st, Raise AttributeError)
      end
  | _ => (st, Raise AttributeError)
  end.

(** [arguments.get(key, fallback)]. *)
Definition get (arguments : gmap string string) (key fallback : string)
    : string :=
  default fallback (arguments !! key).

(** What [run] returns, as far as the handler goes, which only passes it to
    [json.dumps]: a list of [str] (the "ordered sequence of claim strings" of
    section 6 of the specification), or a value of another kind, given by
    what [json.dumps(value, indent=2)] returns or raises on it. *)
Inductive value :=
| Strings (claims : list string)
| Other (dumped : result string).

(** [json.dumps(claims, indent=2)]. *)
Definition dumps (claims : value) : result string :=
  match claims with
  | Strings l => Ok (json_dumps l)
  | Other dumped => dumped
  end.

(** What the handler uses of the two classes it imports, [LLMClient] and
    [ClaimifyPipeline], whose code is not among the repository's files:
    constructing a client, constructing a pipeline from a client and a
    question, and calling [run] on a pipeline.  Each is a step that may change
    the state and may raise. *)
Record Classes := {
  new_LLMClient : M loc;
  new_ClaimifyPipeline : loc -> string -> M loc;
  ClaimifyPipeline_run : loc -> string -> M value
}.

(** A value or an exception, as a step. *)
Definition of_result {A} (r : result A) : M A := fun st => (st, r).

(** [call_tool(name, arguments)], whatever the two classes do.  The arguments
    are a JSON object whose values are strings, the type the input schema
    gives both properties. *)
Definition call_tool_in (K : Classes) (name : string)
    (arguments : gmap string string) : M (list TextContent) :=
  if String.eqb name "extract_claims" then
    try_except
      (let text_to_process := get arguments "text_to_process" EmptyString in
       let question := get arguments "question" NO_QUESTION in
       llm_client ← new_LLMClient K;
       pipeline ← new_ClaimifyPipeline K llm_client question;
       claims ← ClaimifyPipeline_run K pipeline text_to_process;
       result ← of_result (dumps claims);
       mret [ {| type := "text"; text := result |} ])
      (fun e =>
         let error_msg := "Error during claim extraction: " +:+ exn_str e in
         mret [ {| type := "text"; text := error_msg |} ])
  else raise (Exception "ValueError" ("Unknown tool: " +:+ name)).

(** The three calls of the [try] body (lines 69 to 77), in order: the state
    they leave, and what [run] returned or the exception of the first call
    that raises. *)
Definition extraction (K : Classes) (arguments : gmap string string)
    : M value :=
  let text_to_process := get arguments "text_to_process" EmptyString in
  let question := get arguments "question" NO_QUESTION in
  llm_client ← new_LLMClient K;
  pipeline ← new_ClaimifyPipeline K llm_client question;
  ClaimifyPipeline_run K pipeline text_to_process.

(** Modelled from the spec: the two classes in a process [W], a client
    constructor that may raise, and a pipeline as sections 3 to 7 describe
    it. *)
Definition classes (W : World) : Classes := {|
  new_LLMClient := LLMClient W;
  new_ClaimifyPipeline := ClaimifyPipeline;
  ClaimifyPipeline_run := fun self text_to_process =>
    claims ← run W self text_to_process; mret (Strings claims)
|}.

(** [call_tool(name, arguments)] with the classes of the process [W]. *)
Definition call_tool (W : World) (name : string)
    (arguments : gmap string string) : M (list TextContent) :=
  call_tool_in (classes W) name arguments.

(** The payload is a well-formed claim list: one text item whose text reads
    as a JSON array of strings. *)
Definition claim_list_payload (r : result (list TextContent)) : Prop :=
  exists (payload : string) (claims : list string),
    r = Ok [ {| type := "text"; text := payload |} ]
    /\ json_loads payload = Some claims.

(** *** The registered handler

    [@server.call_tool()] (line 64) registers [call_tool] with the MCP
    server: a [tools/call] request is answered by the handler the decorator
    installs ([Server.call_tool] of the MCP SDK, [validate_input] left at its
    default), not by the function alone.  The handler looks the tool up among
    those [list_tools] announces, validates the arguments against the tool's
    [inputSchema], calls the function, and makes a result of what the
    function returns or raises. *)

Record CallToolResult := { content : list TextContent; isError : bool }.

(** [_make_error_result(error_message)]. *)
Definition make_error_result (error_message : string) : CallToolResult :=
  {| content := [ {| type := "text"; text := error_message |} ];
     isError := true |}.

(** [jsonschema.validate(instance=arguments, schema=inputSchema)] for
    arguments whose values are strings and a schema whose properties are of
    type string, where only [required] can fail: the message of the
    [ValidationError] raised, that of the first required property the
    arguments lack, if any. *)
Definition validation_error (s : schema) (arguments : gmap string string)
    : option string :=
  match
    List.filter
      (fun key =>
         match arguments !! key with Some _ => false | None => true end)
      (required s)
  with
  | key :: _ => Some ("'" +:+ key +:+ "' is a required property")
  | [] => None
  end.

(** The handler of a [tools/call] request for the tool [tool_name]: its body
    is one [try] whose [except Exception] makes an error result, so that it
    always returns a result. *)
Definition handle_call_tool (K : Classes) (tool_name : string)
    (arguments : gmap string string) (st : server_state)
    : server_state * CallToolResult :=
  let tool := List.find (fun t => String.eqb (name t) tool_name) list_tools in
  match tool ≫= (fun t => validation_error (inputSchema t) arguments) with
  | Some message =>
      (st, make_error_result ("Input validation error: " +:+ message))
  | None =>
      match call_tool_in K tool_name arguments st with
      | (st', Ok results) => (st', {| content := results; isError := false |})
      | (st', Raise e) => (st', make_error_result (exn_str e))
      end
  end.

(** The server handles the requests it receives one after the other (the
    handler never awaits), each in the state the previous one left.  What the
    classes do may differ from one request to the next. *)
Fixpoint serve (invocations : list (Classes * string * gmap string string))
    (st : server_state) : server_state * list CallToolResult :=
  match invocations with
  | [] => (st, [])
  | (K, tool_name, arguments) :: rest =>
      let '(st', r) := handle_call_tool K tool_name arguments st in
      let '(st'', rs) := serve rest st' in
      (st'', r :: rs)
  end.

Definition initial_state : server_state := {| heap := []; requests := [] |}.

(** *** Start-up *)

(** What [main] does that is visible from outside the process. *)
Inductive action :=
| GetEnv (key : string)
| PrintStderr (line : string)
| SysExit (code : Z)
| ServeStdio.

(** A start-up computation: it reads the environment, leaves a trace of
    actions, and yields a value unless the process has exited. *)
Definition proc (A : Type) : Type :=
  gmap string string -> list action * option A.

#[global] Instance proc_ret : MRet proc := fun A a env => ([], Some a).
#[global] Instance proc_bind : MBind proc := fun A B k m env =>
  match m env with
  | (t, Some a) => let '(t', r) := k a env in ((t ++ t')%list, r)
  | (t, None) => (t, None)
  end.

(** [os.getenv(key)]. *)
Definition getenv (key : string) : proc (option string) :=
  fun env => ([GetEnv key], Some (env !! key)).

(** [os.getenv(key, fallback)]. *)
Definition getenv_or (key fallback : string) : proc string :=
  v ← getenv key; mret (default fallback v).

(** [print(line, file=sys.stderr)]. *)
Definition print_stderr (line : string) : proc unit :=
  fun env => ([PrintStderr line], Some tt).

(** [sys.exit(code)]. *)
Definition sys_exit {A} (code : Z) : proc A :=
  fun env => ([SysExit code], None).

(** [async with stdio_server() ...: await server.run(...)]. *)
Definition serve_stdio : proc unit :=
  fun env => ([ServeStdio], Some tt).

(** [a and b], where [b] is evaluated only when [a] holds. *)
Definition and_then (a : bool) (b : proc bool) : proc bool :=
  if a then b else mret false.

(** [not os.getenv(key)]. *)
Definition not_set (key : string) : proc bool :=
  v ← getenv key; mret (negb (truthy v)).

(** [main()]. *)
Definition main : proc unit :=
  raw ← getenv_or "LLM_PROVIDER" "openai";
  let provider := lower raw in
  openai_missing ← and_then (String.eqb provider "openai")
                     (not_set "OPENAI_API_KEY");
  (if (openai_missing : bool) then
     print_stderr "ERROR: OPENAI_API_KEY environment variable not set.";;
     print_stderr "Please create a .env file with your API key or set the environment variable.";;
     sys_exit 1
   else
     anthropic_missing ← and_then (String.eqb provider "anthropic")
                           (not_set "ANTHROPIC_API_KEY");
     if (anthropic_missing : bool) then
       print_stderr "ERROR: ANTHROPIC_API_KEY environment variable not set.";;
       print_stderr "Please create a .env file with your API key or set the environment variable.";;
       sys_exit 1
     else mret tt);;
  print_stderr "Starting Claimify MCP Server...";;
  print_stderr ("LLM Provider: " +:+ provider);;
  llm_model ← getenv_or "LLM_MODEL" "gpt-4o";
  print_stderr ("Model: " +:+ llm_model);;
  print_stderr "Server is ready to accept connections via stdio.";;
  serve_stdio.

(** The status the process ends with when [main] is run: the code of
    [sys.exit] if it was reached, 0 otherwise. *)
Fixpoint exit_status (trace : list action) : Z :=
  match trace with
  | [] => 0
  | SysExit code :: _ => code
  | _ :: rest => exit_status rest
  end.

(** The trace holds the start of the server. *)
Definition serves (trace : list action) : bool :=
  existsb (fun a => match a with ServeStdio => true | _ => false end) trace.

(** The keys of the environment the trace reads. *)
Definition env_reads (trace : list action) : list string :=
  omap (fun a => match a with GetEnv k => Some k | _ => None end) trace.

End claimify_server.

(** ** More of Python's [str] *)

(** [s.lstrip()]. *)
Fixpoint lstrip (s : string) : string :=
  match s with
  | EmptyString => EmptyString
  | String c rest => if isspace c then lstrip rest else s
  end.

(** [s.rstrip()]. *)
Fixpoint rstrip (s : string) : string :=
  match s with
  | EmptyString => EmptyString
  | String c rest =>
      match rstrip rest with
      | EmptyString => if isspace c then EmptyString else ch c
      | kept => String c kept
      end
  end.

(** [s.strip()]. *)
Definition strip (s : string) : string := rstrip (lstrip s).

(** The words of [s], and whether [s] starts inside a word. *)
Fixpoint split_ws (s : string) : list string * bool :=
  match s with
  | EmptyString => ([], false)
  | String c rest =>
      let '(words, inside) := split_ws rest in
      if isspace c then (words, false)
      else if inside then
        match words with
        | w :: ws => (String c w :: ws, true)
        | [] => ([ch c], true)
        end
      else (ch c :: words, true)
  end.

(** [s.split()]: the words between runs of whitespace. *)
Definition py_split (s : string) : list string := (split_ws s).1.

(** [needle in s]. *)
Fixpoint contains (needle s : string) : bool :=
  String.prefix needle s
  || match s with
     | EmptyString => false
     | String _ rest => contains needle rest
     end.

(** ["=" * n] and the like. *)
Fixpoint repeat_str (s : string) (n : nat) : string :=
  match n with
  | O => EmptyString
  | S n' => s +:+ repeat_str s n'
  end.

(** ** Text files *)

Definition CR : ascii := "013"%char.

(** What reading in text mode makes of the line endings of a decoded text
    ([open(path, 'r')], [newline=None]): ["\r\n"] and a ["\r"] on its own
    both become ["\n"]. *)
Fixpoint universal_newlines (s : string) : string :=
  match s with
  | EmptyString => EmptyString
  | String c rest =>
      if Ascii.eqb c CR then
        match rest with
        | String c' rest' =>
            if Ascii.eqb c' LF then String LF (universal_newlines rest')
            else String LF (universal_newlines rest)
        | EmptyString => String LF EmptyString
        end
      else String c (universal_newlines rest)
  end.

(** The string holds no carriage return. *)
Fixpoint no_carriage_return (s : string) : bool :=
  match s with
  | EmptyString => true
  | String c rest => negb (Ascii.eqb c CR) && no_carriage_return rest
  end.

(** ** Module [setup]: the source file [setup.py] *)
Module setup.

(** What the script does that is visible from outside, besides the files it
    writes: the lines it prints, the run of [pip], and the downloads it asks
    NLTK for. *)
Inductive event :=
| Print (line : string)
| PipInstall
| NltkDownload (resource : string).

(** How a function of the script ends: it returns, the process exits, or an
    exception leaves it. *)
Inductive outcome (A : Type) : Type :=
| Return (a : A)
| Exit (code : Z)
| Raised (e : exn).
Arguments Return {A} a.
Arguments Exit {A} code.
Arguments Raised {A} e.

(** What the script finds on the machine it runs on: the first two
    components of [sys.version_info] (the comparison with [(3, 10)] looks at
    no other, and a longer tuple that starts with [3, 10] is not smaller),
    the text [sys.version], whether [pip] ends with status 0 or
    [check_call] raises, whether [nltk] can be imported, what
    [nltk.download] does for a resource, and how text files are read and
    written: [decode] is the text the bytes of a file stand for in the
    default encoding, or the [UnicodeDecodeError] that reading them raises;
    [encode] is the bytes that writing a text stores (the default encoding,
    with [os.linesep] for each line break). *)
Record Host := {
  version_major : Z;
  version_minor : Z;
  sys_version : string;
  pip_install : result unit;
  import_nltk : result unit;
  nltk_download : string -> result unit;
  decode : string -> result string;
  encode : string -> string
}.

(** A step of the script: it runs on the files of the working directory (a
    path is mapped to the bytes the file holds; every path names a regular
    file the script may read and write), leaves a trace, and ends. *)
Definition io (A : Type) : Type :=
  gmap string string -> list event * gmap string string * outcome A.

#[global] Instance io_ret : MRet io := fun A a fs => ([], fs, Return a).
#[global] Instance io_bind : MBind io := fun A B k m fs =>
  match m fs with
  | (t, fs', Return a) =>
      let '(t', fs'', r) := k a fs' in ((t ++ t')%list, fs'', r)
  | (t, fs', Exit code) => (t, fs', Exit code)
  | (t, fs', Raised e) => (t, fs', Raised e)
  end.

(** [print(line)]. *)
Definition print (line : string) : io unit :=
  fun fs => ([Print line], fs, Return tt).

(** [sys.exit(code)]. *)
Definition sys_exit {A} (code : Z) : io A := fun fs => ([], fs, Exit code).

Definition raise {A} (e : exn) : io A := fun fs => ([], fs, Raised e).

(** An outcome of the host, as a step. *)
Definition of_result {A} (ev : list event) (r : result A) : io A :=
  fun fs => (ev, fs, match r with Ok a => Return a | Raise e => Raised e end).

(** [try: body  except Exception as e: handler(e)] (and the bare [except:]):
    an exit is not caught. *)
Definition try_except {A} (body : io A) (handler : exn -> io A) : io A :=
  fun fs =>
    match body fs with
    | (t, fs', Raised e) =>
        let '(t', fs'', r) := handler e fs' in ((t ++ t')%list, fs'', r)
    | done => done
    end.

(** [Path(path).exists()]. *)
Definition path_exists (path : string) : io bool :=
  fun fs =>
    ([], fs, Return match fs !! path with Some _ => true | None => false end).

Definition FileNotFoundError (path : string) : exn :=
  Exception "FileNotFoundError"
    ("[Errno 2] No such file or directory: '" +:+ path +:+ "'").

(** [open(path, 'r')]: nothing is read yet. *)
Definition open_read (path : string) : io unit :=
  fun fs =>
    ([], fs,
     match fs !! path with
     | Some _ => Return tt
     | None => Raised (FileNotFoundError path)
     end).

(** [f.read()] on the file opened for reading at [path]: the bytes are
    decoded, which may raise, and the line endings translated. *)
Definition read (H : Host) (path : string) : io string :=
  fun fs =>
    ([], fs,
     match fs !! path with
     | Some bytes =>
         match decode H bytes with
         | Ok text => Return (universal_newlines text)
         | Raise e => Raised e
         end
     | None => Raised (FileNotFoundError path)
     end).

(** [open(path, 'w')]: the file is created, or emptied when it is there. *)
Definition open_write (path : string) : io unit :=
  fun fs => ([], <[path := EmptyString]> fs, Return tt).

(** [f.write(text)] on the file opened for writing at [path], and its
    closing. *)
Definition write (H : Host) (path text : string) : io unit :=
  fun fs => ([], <[path := encode H text]> fs, Return tt).

(** [sys.version_info < (3, 10)]. *)
Definition too_old (H : Host) : bool :=
  (version_major H <? 3)
  || ((version_major H =? 3) && (version_minor H <? 10)).

(** [check_python_version()]. *)
Definition check_python_version (H : Host) : io unit :=
  (if too_old H then
     print "ERROR: Python 3.10 or newer is required.";;
     print ("Current version: " +:+ sys_version H);;
     sys_exit 1
   else mret tt);;
  match py_split (sys_version H) with
  | w :: _ => print ("✓ Python version " +:+ w +:+ " is compatible")
  | [] => raise (Exception "IndexError" "list index out of range")
  end.

(** [install_dependencies()]. *)
Definition install_dependencies (H : Host) : io unit :=
  print "Installing dependencies...";;
  try_except
    (of_result [PipInstall] (pip_install H);;
     print "✓ Dependencies installed successfully")
    (fun e =>
       if String.eqb (exn_class e) "CalledProcessError" then
         print "ERROR: Failed to install dependencies";;
         sys_exit 1
       else raise e).

Definition NLTK_HINT : string :=
  "python -c " +:+ ch DQUOTE +:+ "import nltk; nltk.download('punkt_tab')"
  +:+ ch DQUOTE +:+ " or python -c " +:+ ch DQUOTE
  +:+ "import nltk; nltk.download('punkt')" +:+ ch DQUOTE.

(** [download_nltk_data()]. *)
Definition download_nltk_data (H : Host) : io unit :=
  print "Downloading NLTK data...";;
  try_except
    (of_result [] (import_nltk H);;
     try_except
       (of_result [NltkDownload "punkt_tab"] (nltk_download H "punkt_tab");;
        print "✓ NLTK punkt_tab tokenizer downloaded")
       (fun _ =>
          of_result [NltkDownload "punkt"] (nltk_download H "punkt");;
          print "✓ NLTK punkt tokenizer downloaded"))
    (fun e =>
       print ("Warning: Failed to download NLTK data: " +:+ exn_str e);;
       print ("You may need to run: " +:+ NLTK_HINT)).

(** The text [create_env_file] writes when there is no template. *)
Definition env_content : string :=
  "# API Keys (set one based on your LLM_PROVIDER choice)" +:+ ch LF
  +:+ "OPENAI_API_KEY=" +:+ ch DQUOTE +:+ "your-openai-api-key-here"
  +:+ ch DQUOTE +:+ ch LF
  +:+ "ANTHROPIC_API_KEY=" +:+ ch DQUOTE +:+ "your-anthropic-api-key-here"
  +:+ ch DQUOTE +:+ ch LF
  +:+ ch LF
  +:+ "# LLM Configuration" +:+ ch LF
  +:+ "LLM_PROVIDER=" +:+ ch DQUOTE +:+ "openai" +:+ ch DQUOTE
  +:+ "  # Choose " +:+ ch DQUOTE +:+ "openai" +:+ ch DQUOTE +:+ " or "
  +:+ ch DQUOTE +:+ "anthropic" +:+ ch DQUOTE +:+ ch LF
  +:+ "LLM_MODEL=" +:+ ch DQUOTE +:+ "gpt-4o" +:+ ch DQUOTE
  +:+ "     # Or " +:+ ch DQUOTE +:+ "claude-3-5-sonnet-20240620"
  +:+ ch DQUOTE +:+ " for Anthropic" +:+ ch LF
  +:+ ch LF
  +:+ "# Server Configuration" +:+ ch LF
  +:+ "SERVER_PORT=8080" +:+ ch LF.

(** [create_env_file()].  The [with] statement opens the template for
    reading and then [.env] for writing before anything is read: when
    [src.read()] raises, both files are closed and [.env] is left as it was
    opened, empty. *)
Definition create_env_file (H : Host) : io unit :=
  let env_file := ".env" in
  let example_file := "env.example" in
  has_env ← path_exists env_file;
  if (has_env : bool) then print "✓ .env file already exists"
  else
    has_example ← path_exists example_file;
    if (has_example : bool) then
      open_read example_file;;
      open_write env_file;;
      template ← read H example_file;
      write H env_file template;;
      print "✓ Created .env file from template";;
      print "  Please edit .env and add your API keys"
    else
      open_write env_file;;
      write H env_file env_content;;
      print "✓ Created .env file";;
      print "  Please edit .env and add your API keys".

Definition prompt_files : list string :=
  ["selection_prompt.txt"; "disambiguation_prompt.txt";
   "decomposition_prompt.txt"].

(** [prompts_dir / prompt_file]. *)
Definition prompt_path (prompt_file : string) : string :=
  "prompts/" +:+ prompt_file.

(** The test on the stripped content of a prompt file:
    [content.startswith('#') or len(content) < 100]. *)
Definition placeholder_content (content : string) : bool :=
  String.prefix "#" content || (String.length content <? 100)%nat.

(** The body of the loop of [check_prompt_files] for one file: whether the
    file is appended to [missing_prompts].  A file that is there is read,
    outside any [try]. *)
Definition needs_populating (H : Host) (prompt_file : string) : io bool :=
  let file_path := prompt_path prompt_file in
  there ← path_exists file_path;
  if (there : bool) then
    open_read file_path;;
    text ← read H file_path;
    let content := strip text in
    mret (placeholder_content content)
  else mret true.

(** The loop of [check_prompt_files]: the files to report, in the order of
    [prompt_files]. *)
Fixpoint missing_prompts (H : Host) (files : list string)
    : io (list string) :=
  match files with
  | [] => mret []
  | prompt_file :: rest =>
      missing ← needs_populating H prompt_file;
      found ← missing_prompts H rest;
      mret (if (missing : bool) then prompt_file :: found else found)
  end.

Fixpoint print_each (lines : list string) : io unit :=
  match lines with
  | [] => mret tt
  | line :: rest => print line;; print_each rest
  end.

(** [check_prompt_files()]. *)
Definition check_prompt_files (H : Host) : io unit :=
  missing ← missing_prompts H prompt_files;
  match missing with
  | _ :: _ =>
      print "⚠ Prompt files need to be populated:";;
      print_each (map (fun f => "  - prompts/" +:+ f) missing);;
      print (ch LF +:+ "Please copy the exact prompt texts from the Claimify paper:");;
      print "  - Selection System Prompt (Appendix N.1.1) → prompts/selection_prompt.txt";;
      print "  - Disambiguation System Prompt (Appendix N.1.2) → prompts/disambiguation_prompt.txt";;
      print "  - Decomposition System Prompt (Appendix N.1.3) → prompts/decomposition_prompt.txt"
  | [] => print "✓ All prompt files appear to be populated"
  end.

(** [main()]. *)
Definition main (H : Host) : io unit :=
  print ("🔧 Setting up Claimify project..." +:+ ch LF);;
  check_python_version H;;
  install_dependencies H;;
  download_nltk_data H;;
  create_env_file H;;
  check_prompt_files H;;
  print (ch LF +:+ "🎉 Setup complete!");;
  print (ch LF +:+ "Next steps:");;
  print "1. Edit .env file and add your API keys";;
  print "2. Copy the Claimify prompts from the paper to the prompts/ files";;
  print "3. Run: python claimify_server.py";;
  print (ch LF +:+ "For detailed instructions, see README.md").

(** The resources the trace asks NLTK for, in order. *)
Definition downloads (trace : list event) : list string :=
  omap (fun ev => match ev with NltkDownload r => Some r | _ => None end)
    trace.

(** The trace holds a run of [pip]. *)
Definition ran_pip (trace : list event) : bool :=
  existsb (fun ev => match ev with PipInstall => true | _ => false end) trace.

(** What reading the file at [path] gives, when it is there. *)
Definition file_text (H : Host) (fs : gmap string string) (path : string)
    : option (result string) :=
  bytes ← fs !! path;
  Some (match decode H bytes with
        | Ok text => Ok (universal_newlines text)
        | Raise e => Raise e
        end).

(** The prompt file is not there, or it can be read. *)
Definition readable (H : Host) (fs : gmap string string)
    (prompt_file : string) : Prop :=
  forall e, file_text H fs (prompt_path prompt_file) <> Some (Raise e).

(** The prompt file is there and [check_prompt_files] takes it as populated:
    stripped, its text does not start with ['#'] and has 100 characters or
    more. *)
Definition populated (H : Host) (fs : gmap string string)
    (prompt_file : string) : Prop :=
  exists text,
    file_text H fs (prompt_path prompt_file) = Some (Ok text)
    /\ String.prefix "#" (strip text) = false
    /\ (100 <= String.length (strip text))%nat.

(** What the loop of [check_prompt_files] decides for one file: reported,
    not reported, or the exception that reading it raises. *)
Definition verdict (H : Host) (fs : gmap string string)
    (prompt_file : string) : result bool :=
  match file_text H fs (prompt_path prompt_file) with
  | None => Ok true
  | Some (Ok text) => Ok (placeholder_content (strip text))
  | Some (Raise e) => Raise e
  end.

(** What the loop collects over [files], or the exception that ends it. *)
Fixpoint reports (H : Host) (fs : gmap string string) (files : list string)
    : result (list string) :=
  match files with
  | [] => Ok []
  | prompt_file :: rest =>
      match verdict H fs prompt_file with
      | Raise e => Raise e
      | Ok missing =>
          match reports H fs rest with
          | Raise e => Raise e
          | Ok found => Ok (if missing then prompt_file :: found else found)
          end
      end
  end.

End setup.

(** ** Module [test_claimify]: the source file [test_claimify.py] *)
Module test_claimify.
Import pipeline.

(** [test_text] of [test_pipeline_basic]. *)
Definition test_text : string :=
  "This is the first sentence. This is the second sentence."
  +:+ ch LF +:+ "This is a third sentence on a new line.".

(** [test_pipeline_basic()]: the value it returns (the lines it prints are
    left out).  An exception raised by either function makes it return
    [False]. *)
Definition test_pipeline_basic (cfg : Config) : bool :=
  let sentences := split_into_sentences cfg test_text in
  if Nat.eqb (length sentences) 3 then
    match create_context_for_sentence sentences 1 1 1 with
    | Ok context => Nat.eqb (length (split_lines context)) 3
    | Raise _ => false
    end
  else false.

(** What the test script finds in the process it runs in: whether each of the
    modules it imports can be imported and what the import provides (the class
    [LLMClient], called without arguments, gives an instance or raises; the
    module [pipeline] provides the two functions, determined here by its
    configuration; the module [prompts] provides the three prompts), the
    environment after [load_dotenv()], and what [nltk.data.find] does for a
    resource. *)
Record Process := {
  nltk_module : result unit;
  llm_client_module : result (result llm_client.LLMClient);
  pipeline_module : result Config;
  prompts_module : result (string * string * string);
  environ : gmap string string;
  nltk_data_find : string -> result unit
}.

(** A test: the lines it prints, and the value it returns or the exception
    that leaves it. *)
Definition out (A : Type) : Type := list string * result A.

#[global] Instance out_ret : MRet out := fun A a => ([], Ok a).
#[global] Instance out_bind : MBind out := fun A B k m =>
  match m with
  | (t, Ok a) => let '(t', r) := k a in ((t ++ t')%list, r)
  | (t, Raise e) => (t, Raise e)
  end.

(** [print(line)]. *)
Definition print (line : string) : out unit := ([line], Ok tt).

Definition raise {A} (e : exn) : out A := ([], Raise e).

(** What the process provides, as a step that prints nothing. *)
Definition of_result {A} (r : result A) : out A := ([], r).

(** [try: body  except Exception as e: handler(e)]. *)
Definition try_except {A} (body : out A) (handler : exn -> out A) : out A :=
  match body with
  | (t, Raise e) => let '(t', r) := handler e in ((t ++ t')%list, r)
  | done => done
  end.

(** [except ImportError] catches the class and its subclass. *)
Definition is_ImportError (e : exn) : bool :=
  String.eqb (exn_class e) "ImportError"
  || String.eqb (exn_class e) "ModuleNotFoundError".

(** [except LookupError] catches the class and its subclasses. *)
Definition is_LookupError (e : exn) : bool :=
  String.eqb (exn_class e) "LookupError"
  || String.eqb (exn_class e) "IndexError"
  || String.eqb (exn_class e) "KeyError".

(** One [try: import ...  except ImportError as e: ... return False] block of
    [test_imports], followed by the rest of the function. *)
Definition import_or_fail {A} (imported : result A) (what : string)
    (rest : out bool) : out bool :=
  match imported with
  | Ok _ => print ("✓ " +:+ what +:+ " imported");; rest
  | Raise e =>
      if is_ImportError e then
        print ("✗ Failed to import " +:+ what +:+ ": " +:+ exn_str e);;
        mret false
      else raise e
  end.

(** The exception of an import that failed. *)
Definition failure {A} (imported : result A) : option exn :=
  match imported with
  | Ok _ => None
  | Raise e => Some e
  end.

(** The exception of the first import that fails, in the order in which
    [test_imports] tries them. *)
Definition first_failed_import (P : Process) : option exn :=
  match failure (nltk_module P) with
  | Some e => Some e
  | None =>
      match failure (llm_client_module P) with
      | Some e => Some e
      | None =>
          match failure (pipeline_module P) with
          | Some e => Some e
          | None => failure (prompts_module P)
          end
      end
  end.

(** [test_imports()]. *)
Definition test_imports (P : Process) : out bool :=
  print "Testing imports...";;
  import_or_fail (nltk_module P) "NLTK"
    (import_or_fail (llm_client_module P) "LLMClient"
       (import_or_fail (pipeline_module P) "ClaimifyPipeline"
          (match prompts_module P with
           | Ok _ => print "✓ Prompts imported";; mret true
           | Raise e =>
               if is_ImportError e then
                 print ("✗ Failed to import prompts: " +:+ exn_str e);;
                 mret false
               else raise e
           end))).

(** [not api_key or api_key == placeholder]. *)
Definition key_unusable (api_key : option string) (placeholder : string)
    : bool :=
  negb (truthy api_key)
  || match api_key with
     | Some k => String.eqb k placeholder
     | None => false
     end.

(** [test_environment()]. *)
Definition test_environment (P : Process) : out bool :=
  print (ch LF +:+ "Testing environment configuration...");;
  let provider := lower (default "openai" (environ P !! "LLM_PROVIDER")) in
  print ("✓ LLM Provider: " +:+ provider);;
  let finish : out bool :=
    let model := default "gpt-4o" (environ P !! "LLM_MODEL") in
    print ("✓ Model: " +:+ model);;
    print "✓ Using stdio transport (no port needed)";;
    mret true in
  if String.eqb provider "openai" then
    let api_key := environ P !! "OPENAI_API_KEY" in
    if key_unusable api_key "your-openai-api-key-here" then
      print "✗ OPENAI_API_KEY not set or using placeholder value";;
      mret false
    else
      print ("✓ OpenAI API key configured (length: "
             +:+ pretty (String.length (default EmptyString api_key))
             +:+ ")");;
      finish
  else if String.eqb provider "anthropic" then
    let api_key := environ P !! "ANTHROPIC_API_KEY" in
    if key_unusable api_key "your-anthropic-api-key-here" then
      print "✗ ANTHROPIC_API_KEY not set or using placeholder value";;
      mret false
    else
      print ("✓ Anthropic API key configured (length: "
             +:+ pretty (String.length (default EmptyString api_key))
             +:+ ")");;
      finish
  else
    print ("✗ Unknown LLM provider: " +:+ provider);;
    mret false.

(** [test_nltk_data()]. *)
Definition test_nltk_data (P : Process) : out bool :=
  print (ch LF +:+ "Testing NLTK data...");;
  try_except
    (of_result (nltk_module P);;
     match nltk_data_find P "tokenizers/punkt_tab" with
     | Ok _ => print "✓ NLTK punkt_tab tokenizer available";; mret true
     | Raise e =>
         if is_LookupError e then
           match nltk_data_find P "tokenizers/punkt" with
           | Ok _ => print "✓ NLTK punkt tokenizer available";; mret true
           | Raise e' =>
               if is_LookupError e' then
                 print "✗ NLTK tokenizer not found";;
                 print ("  Run: " +:+ setup.NLTK_HINT);;
                 mret false
               else raise e'
           end
         else raise e
     end)
    (fun e => print ("✗ NLTK test failed: " +:+ exn_str e);; mret false).

(** One of the three checks of [test_prompts], followed by the rest. *)
Definition prompt_or_fail (prompt what : string) (rest : out bool)
    : out bool :=
  if String.prefix "#" prompt then
    print ("✗ " +:+ what +:+ " prompt appears to be placeholder content");;
    mret false
  else
    print ("✓ " +:+ what +:+ " prompt loaded (length: "
           +:+ pretty (String.length prompt) +:+ ")");;
    rest.

(** [test_prompts()]. *)
Definition test_prompts (P : Process) : out bool :=
  print (ch LF +:+ "Testing prompts...");;
  try_except
    ('(selection, disambiguation, decomposition) ←
       of_result (prompts_module P);
     prompt_or_fail selection "Selection"
       (prompt_or_fail disambiguation "Disambiguation"
          (prompt_or_fail decomposition "Decomposition"
             (mret true))))
    (fun e => print ("✗ Error loading prompts: " +:+ exn_str e);; mret false).

(** [from llm_client import LLMClient] followed by [LLMClient()]. *)
Definition new_client (P : Process) : out llm_client.LLMClient :=
  construct ← of_result (llm_client_module P);
  of_result construct.

(** [test_llm_client()]. *)
Definition test_llm_client (P : Process) : out bool :=
  print (ch LF +:+ "Testing LLM client...");;
  try_except
    (client ← new_client P;
     print ("✓ LLM client initialized for " +:+ llm_client.provider client
            +:+ " with model " +:+ llm_client.model client);;
     mret true)
    (fun e =>
       print ("✗ Failed to initialize LLM client: " +:+ exn_str e);;
       mret false).

(** [test_pipeline_basic()] with the lines it prints and the import it starts
    with; [test_pipeline_basic] above is the value it returns once the
    module is imported. *)
Definition test_pipeline_basic_out (P : Process) : out bool :=
  print (ch LF +:+ "Testing pipeline (sentence splitting only)...");;
  try_except
    (cfg ← of_result (pipeline_module P);
     let sentences := split_into_sentences cfg test_text in
     if Nat.eqb (length sentences) 3 then
       print ("✓ Sentence splitting works (found "
              +:+ pretty (length sentences) +:+ " sentences)");;
       context ← of_result (create_context_for_sentence sentences 1 1 1);
       if Nat.eqb (length (split_lines context)) 3 then
         print "✓ Context creation works";;
         mret true
       else
         print "✗ Context creation unexpected result";;
         mret false
     else
       print ("✗ Sentence splitting unexpected result (found "
              +:+ pretty (length sentences) +:+ " sentences, expected 3)");;
       mret false)
    (fun e => print ("✗ Pipeline test failed: " +:+ exn_str e);; mret false).

(** [test_api_connection()]. *)
Definition test_api_connection (P : Process) : out bool :=
  print (ch LF +:+ "Testing API connection (optional)...");;
  try_except
    (client ← new_client P;
     response ← of_result
                  (llm_client.make_request client
                     "You are a helpful assistant."
                     "Say 'test successful' if you can read this.");
     if negb (String.eqb response EmptyString)
        && contains "test successful" (lower response) then
       print "✓ API connection successful";;
       mret true
     else if negb (String.eqb response EmptyString) then
       print ("✓ API connection works, got response: "
              +:+ String.substring 0 50 response +:+ "...");;
       mret true
     else
       print "✗ API returned empty response";;
       mret false)
    (fun e =>
       print ("⚠ API test failed (this may be expected if API keys aren't configured): "
              +:+ exn_str e);;
       mret false).

(** The first loop of [main]: each test is run, a test that raises is
    recorded as failed, and an empty line follows each. *)
Fixpoint run_tests (tests : list (string * out bool))
    : out (list (string * option bool)) :=
  match tests with
  | [] => mret []
  | (test_name, test_func) :: rest =>
      result ← try_except test_func
                 (fun e =>
                    print ("✗ " +:+ test_name +:+ " test crashed: "
                           +:+ exn_str e);;
                    mret false);
      print EmptyString;;
      results ← run_tests rest;
      mret ((test_name, Some result) :: results)
  end.

(** The second loop of [main]: the summary lines and the three counters
    [(passed, failed, skipped)]. *)
Fixpoint summarize (results : list (string * option bool))
    (counts : nat * nat * nat) : out (nat * nat * nat) :=
  match results with
  | [] => mret counts
  | (test_name, result) :: rest =>
      let '(passed, failed, skipped) := counts in
      match result with
      | Some true =>
          print ("✓ " +:+ test_name);;
          summarize rest (S passed, failed, skipped)
      | Some false =>
          print ("✗ " +:+ test_name);;
          summarize rest (passed, S failed, skipped)
      | None =>
          print ("⚠ " +:+ test_name +:+ " (skipped)");;
          summarize rest (passed, failed, S skipped)
      end
  end.

(** The list [tests] of [main]. *)
Definition tests (P : Process) : list (string * out bool) :=
  [("Imports", test_imports P);
   ("Environment", test_environment P);
   ("NLTK Data", test_nltk_data P);
   ("Prompts", test_prompts P);
   ("LLM Client", test_llm_client P);
   ("Pipeline Basic", test_pipeline_basic_out P)].

(** [main()], given the tests to run and the optional API test. *)
Definition main_with (tests : list (string * out bool)) (api_test : out bool)
    : out bool :=
  print ("🧪 Running Claimify tests..." +:+ ch LF);;
  results ← run_tests tests;
  print (repeat_str "=" 50);;
  print "Optional API test (requires valid API key):";;
  api_result ← try_except
                 (r ← api_test; mret (Some r))
                 (fun e => print ("API test skipped: " +:+ exn_str e);;
                           mret None);
  let results := (results ++ [("API Connection", api_result)])%list in
  print (ch LF +:+ repeat_str "=" 50);;
  print "TEST SUMMARY:";;
  '(passed, failed, skipped) ← summarize results (O, O, O);
  print (ch LF +:+ "Passed: " +:+ pretty passed +:+ ", Failed: "
         +:+ pretty failed +:+ ", Skipped: " +:+ pretty skipped);;
  (if Nat.eqb failed 0 then
     print (ch LF +:+ "🎉 All critical tests passed! Your setup looks good.");;
     print "You can now run: python claimify_server.py"
   else
     print (ch LF +:+ "❌ " +:+ pretty failed
            +:+ " test(s) failed. Please check the issues above.");;
     print "See README.md for troubleshooting help.");;
  mret (Nat.eqb failed 0).

(** [main()]. *)
Definition main (P : Process) : out bool :=
  main_with (tests P) (test_api_connection P).

(** The status of the process when the script is run:
    [sys.exit(0 if success else 1)]; an exception that leaves [main] ends the
    process with status 1. *)
Definition exit_status (P : Process) : Z :=
  match (main P).2 with
  | Ok true => 0
  | _ => 1
  end.

(** What [main] records for a test: its value, [False] when it raised. *)
Definition recorded (t : out bool) : bool :=
  match t.2 with
  | Ok b => b
  | Raise _ => false
  end.

(** The test returns: no exception leaves it. *)
Definition returns (t : out bool) : Prop := exists b, t.2 = Ok b.

(** The number of results that are [True], [False], [None]. *)
Definition count_passed (results : list (string * option bool)) : nat :=
  length (filter (fun r => r.2 = Some true) results).

Definition count_failed (results : list (string * option bool)) : nat :=
  length (filter (fun r => r.2 = Some false) results).

Definition count_skipped (results : list (string * option bool)) : nat :=
  length (filter (fun r => r.2 = None) results).

(** The line of [main] that reports the three counters. *)
Definition summary_line (passed failed skipped : nat) : string :=
  ch LF +:+ "Passed: " +:+ pretty passed +:+ ", Failed: "
  +:+ pretty failed +:+ ", Skipped: " +:+ pretty skipped.

(** The results [main] summarizes. *)
Definition results_of (tests : list (string * out bool)) (api_test : out bool)
    : list (string * option bool) :=
  (map (fun nt => (nt.1, Some (recorded nt.2))) tests
   ++ [("API Connection",
        match api_test.2 with Ok b => Some b | Raise _ => None end)])%list.

End test_claimify.

(** ** Stand-ins

    Concrete collaborators on which the development is run: a rule-based
    sentence-boundary detector, a configuration with short prompts, and
    clients whose model answers by fixed rules.  The theorems below hold for
    every configuration and client; the stand-ins instantiate them. *)
Module standins.
Import llm_client pipeline.

Definition is_terminator (c : ascii) : bool :=
  Ascii.eqb c "."%char || Ascii.eqb c "!"%char || Ascii.eqb c "?"%char.

Definition cons_head (c : ascii) (pieces : list string) : list string :=
  match pieces with
  | [] => [ch c]
  | x :: xs => String c x :: xs
  end.

(** A sentence ends at a terminator that is followed by a space or by the end
    of the text; the space is not part of either sentence. *)
Fixpoint rule_tokenize (s : string) : list string :=
  match s with
  | EmptyString => []
  | String c rest =>
      if is_terminator c then
        match rest with
        | EmptyString => [ch c]
        | String c' rest' =>
            if Ascii.eqb c' " "%char then ch c :: rule_tokenize rest'
            else cons_head c (rule_tokenize rest)
        end
      else cons_head c (rule_tokenize rest)
  end.

Definition first_line (s : string) : string :=
  match split_lines s with
  | [] => EmptyString
  | l :: _ => l
  end.

(** The user content puts the sentence on the first line, then the question,
    then the context. *)
Definition config : Config := {|
  SELECTION_SYSTEM_PROMPT := "SELECT";
  DISAMBIGUATION_SYSTEM_PROMPT := "DISAMBIGUATE";
  DECOMPOSITION_SYSTEM_PROMPT := "DECOMPOSE";
  selection_content := fun context sentence question =>
    sentence +:+ ch LF +:+ question +:+ ch LF +:+ context;
  disambiguation_content := fun context sentence question =>
    sentence +:+ ch LF +:+ question +:+ ch LF +:+ context;
  decomposition_content := fun context disambiguated =>
    disambiguated +:+ ch LF +:+ context;
  parse_selection := fun response =>
    if String.eqb response "yes" then Ok (Proceed true)
    else if String.eqb response "no" then Ok (Reject "no verifiable claim")
    else Ok (Unparseable response);
  parse_disambiguation := fun response => Ok (Proceed response);
  parse_decomposition := fun response => Ok (Proceed [response]);
  sent_tokenize := rule_tokenize;
  sentences_before := 1;
  sentences_after := 1
|}.

(** The model selects every sentence but those that start with "I think",
    cannot be reached for a sentence that starts with "Boom", and otherwise
    answers with the sentence it was shown. *)
Definition client : LLMClient := {|
  provider := "openai";
  model := "gpt-4o";
  make_request := fun system user =>
    if String.prefix "Boom" user then
      Raise (Exception "ConnectionError" "model unreachable")
    else if String.eqb system "SELECT" then
      Ok (if String.prefix "I think" user then "no" else "yes")
    else Ok (first_line user)
|}.

(** A process in which the client can be constructed. *)
Definition world : claimify_server.World := {|
  claimify_server.config := config;
  claimify_server.LLMClient_init := Ok client
|}.

(** A process in which [LLMClient()] raises. *)
Definition world_without_client : claimify_server.World := {|
  claimify_server.config := config;
  claimify_server.LLMClient_init :=
    Raise (Exception "ValueError" "Unsupported LLM provider: gemini")
|}.

(** Classes whose [run] returns a set, on which [json.dumps] raises. *)
Definition classes_returning_a_set : claimify_server.Classes := {|
  claimify_server.new_LLMClient := claimify_server.LLMClient world;
  claimify_server.new_ClaimifyPipeline := claimify_server.ClaimifyPipeline;
  claimify_server.ClaimifyPipeline_run := fun _ _ =>
    mret (claimify_server.Other
            (Raise (Exception "TypeError"
                      "Object of type set is not JSON serializable")))
|}.

(** A process in which every module can be imported, the OpenAI key is set,
    and NLTK has the [punkt_tab] tokenizer only. *)
Definition process : test_claimify.Process := {|
  test_claimify.nltk_module := Ok tt;
  test_claimify.llm_client_module := Ok (Ok client);
  test_claimify.pipeline_module := Ok config;
  test_claimify.prompts_module :=
    Ok ("You select.", "You disambiguate.", "You decompose.");
  test_claimify.environ := {[ "OPENAI_API_KEY" := "sk-test" ]};
  test_claimify.nltk_data_find := fun resource =>
    if String.eqb resource "tokenizers/punkt_tab" then Ok tt
    else Raise (Exception "LookupError" "Resource not found")
|}.

(** The same process without the [prompts] module and with a template key. *)
Definition process_unconfigured : test_claimify.Process := {|
  test_claimify.nltk_module := Ok tt;
  test_claimify.llm_client_module :=
    Ok (Raise (Exception "ValueError" "OPENAI_API_KEY not found"));
  test_claimify.pipeline_module := Ok config;
  test_claimify.prompts_module :=
    Raise (Exception "FileNotFoundError" "prompts/selection_prompt.txt");
  test_claimify.environ :=
    {[ "OPENAI_API_KEY" := "your-openai-api-key-here" ]};
  test_claimify.nltk_data_find := fun resource =>
    Raise (Exception "LookupError" "Resource not found")
|}.

(** The stand-in machines read and write text files in ASCII, with the line
    feed as [os.linesep]: a file that holds a byte above 127 cannot be
    read, and a text is stored as it is. *)
Fixpoint is_ascii (s : string) : bool :=
  match s with
  | EmptyString => true
  | String c rest => (N_of_ascii c <? 128)%N && is_ascii rest
  end.

Definition ascii_decode (bytes : string) : result string :=
  if is_ascii bytes then Ok bytes
  else Raise (Exception "UnicodeDecodeError"
                "'ascii' codec can't decode byte: ordinal not in range(128)").

(** A machine with Python 3.11 on which every step of the set-up works, the
    [punkt_tab] download apart. *)
Definition host : setup.Host := {|
  setup.version_major := 3;
  setup.version_minor := 11;
  setup.sys_version := "3.11.4 (main, Jun  7 2023, 00:00:00) [GCC 12.2.0]";
  setup.pip_install := Ok tt;
  setup.import_nltk := Ok tt;
  setup.nltk_download := fun resource =>
    if String.eqb resource "punkt_tab"
    then Raise (Exception "ValueError" "unknown resource")
    else Ok tt;
  setup.decode := ascii_decode;
  setup.encode := fun text => text
|}.

(** A machine with Python 3.9. *)
Definition old_host : setup.Host := {|
  setup.version_major := 3;
  setup.version_minor := 9;
  setup.sys_version := "3.9.18 (main) [GCC 12.2.0]";
  setup.pip_install := Ok tt;
  setup.import_nltk := Ok tt;
  setup.nltk_download := fun _ => Ok tt;
  setup.decode := ascii_decode;
  setup.encode := fun text => text
|}.

(** A machine on which [pip] fails. *)
Definition host_without_pip : setup.Host := {|
  setup.version_major := 3;
  setup.version_minor := 12;
  setup.sys_version := "3.12.1 (main) [GCC 12.2.0]";
  setup.pip_install :=
    Raise (Exception "CalledProcessError"
             "Command returned non-zero exit status 1.");
  setup.import_nltk := Ok tt;
  setup.nltk_download := fun _ => Ok tt;
  setup.decode := ascii_decode;
  setup.encode := fun text => text
|}.

End standins.

(** * Properties *)

(** ** The definitions at work *)
Section examples.
Import claimify_server.

Example lower_mixed_case : lower "OpenAI" = "openai".
Proof. reflexivity. Qed.

Example split_lines_trailing_break :
  split_lines ("ab" +:+ ch LF +:+ "cd" +:+ ch LF) = ["ab"; "cd"; EmptyString].
Proof. reflexivity. Qed.

Example json_dumps_two :
  json_dumps ["a"; "b"]
  = "[" +:+ ch LF +:+ "  " +:+ ch DQUOTE +:+ "a" +:+ ch DQUOTE +:+ ","
    +:+ ch LF +:+ "  " +:+ ch DQUOTE +:+ "b" +:+ ch DQUOTE
    +:+ ch LF +:+ "]".
Proof. reflexivity. Qed.

Example json_dumps_escapes :
  json_dumps [ch DQUOTE +:+ ch LF +:+ ch "001"%char +:+ ch "255"%char]
  = "[" +:+ ch LF +:+ "  " +:+ ch DQUOTE
    +:+ ch BACKSLASH +:+ ch DQUOTE +:+ ch BACKSLASH +:+ "n"
    +:+ ch BACKSLASH +:+ "u0001" +:+ ch BACKSLASH +:+ "u00ff"
    +:+ ch DQUOTE +:+ ch LF +:+ "]".
Proof. reflexivity. Qed.

Example json_loads_spaced :
  json_loads (" [ " +:+ ch DQUOTE +:+ "a" +:+ ch BACKSLASH +:+ "u0041"
              +:+ ch DQUOTE +:+ " ,"  +:+ ch DQUOTE +:+ ch DQUOTE +:+ "] ")
  = Some ["aA"; EmptyString].
Proof. reflexivity. Qed.

Example json_loads_truncated :
  json_loads ("[" +:+ ch LF +:+ "  " +:+ ch DQUOTE +:+ "a" +:+ ch DQUOTE +:+ ",")
  = None.
Proof. reflexivity. Qed.

Example context_at_the_start :
  pipeline.create_context_for_sentence ["a"; "b"; "c"] 0 5 1
  = Ok ("a" +:+ ch LF +:+ "b").
Proof. reflexivity. Qed.

Example context_invalid_index :
  pipeline.create_context_for_sentence ["a"; "b"; "c"] 3 1 1
  = Raise (Exception "IndexError" "list index out of range").
Proof. reflexivity. Qed.

Example run_on_four_sentences :
  (pipeline.run standins.config standins.client "Q"
     "Alpha is one. Boom goes two. Gamma is three. I think so.").2
  = ["Alpha is one."; "Gamma is three."].
Proof. reflexivity. Qed.

Example call_tool_answers_with_json :
  (call_tool standins.world "extract_claims"
     {[ "text_to_process" := "Alpha is one. Gamma is three." ]}
     initial_state).2
  = Ok [ {| type := "text";
            text := json_dumps ["Alpha is one."; "Gamma is three."] |} ].
Proof. reflexivity. Qed.

Example call_tool_unknown_tool :
  (call_tool standins.world "extract" ∅ initial_state).2
  = Raise (Exception "ValueError" "Unknown tool: extract").
Proof. reflexivity. Qed.

Example call_tool_cannot_serialize :
  (call_tool_in standins.classes_returning_a_set "extract_claims"
     {[ "text_to_process" := "Alpha is one." ]} initial_state).2
  = Ok [ {| type := "text";
            text := "Error during claim extraction: Object of type set is not JSON serializable" |} ].
Proof. reflexivity. Qed.

Example main_with_key :
  (main {[ "OPENAI_API_KEY" := "sk-test" ]}).1
  = [GetEnv "LLM_PROVIDER"; GetEnv "OPENAI_API_KEY";
     PrintStderr "Starting Claimify MCP Server...";
     PrintStderr "LLM Provider: openai";
     GetEnv "LLM_MODEL";
     PrintStderr "Model: gpt-4o";
     PrintStderr "Server is ready to accept connections via stdio.";
     ServeStdio].
Proof. reflexivity. Qed.

End examples.

(** ** Lines of a string *)
Section lines.

Lemma split_lines_nonempty (s : string) : split_lines s <> [].
Proof.
  destruct s as [|c rest]; simpl; [discriminate|].
  destruct (Ascii.eqb c LF); [discriminate|].
  destruct (split_lines rest); discriminate.
Qed.

Lemma split_lines_no_break (s : string) :
  no_line_break s = true -> split_lines s = [s].
Proof.
  induction s as [|c rest IH]; simpl; [reflexivity|].
  destruct (Ascii.eqb c LF); simpl; [discriminate|].
  intros H. rewrite (IH H). reflexivity.
Qed.

Lemma split_lines_app (s t : string) :
  no_line_break s = true ->
  split_lines (s +:+ String LF t) = s :: split_lines t.
Proof.
  induction s as [|c rest IH]; simpl.
  - reflexivity.
  - destruct (Ascii.eqb c LF); simpl; [discriminate|].
    intros H. rewrite (IH H). reflexivity.
Qed.

(** Splitting what was joined gives the pieces back, when no piece holds a
    line break. *)
Lemma split_join_lines (pieces : list string) :
  pieces <> [] ->
  Forall (fun s => no_line_break s = true) pieces ->
  split_lines (join_lines pieces) = pieces.
Proof.
  induction pieces as [|x xs IH]; [congruence|].
  intros _ Hall. inversion Hall as [|? ? Hx Hxs]; subst.
  destruct xs as [|y ys].
  - simpl. apply split_lines_no_break, Hx.
  - change (join_lines (x :: y :: ys))
      with (x +:+ String LF (join_lines (y :: ys))).
    rewrite split_lines_app by exact Hx.
    rewrite IH; [reflexivity|discriminate|exact Hxs].
Qed.

(** A string has one line more than it has line breaks. *)
Lemma split_lines_length (s : string) :
  length (split_lines s) = S (line_breaks s).
Proof.
  induction s as [|c rest IH]; simpl; [reflexivity|].
  destruct (Ascii.eqb c LF); simpl; [rewrite IH; reflexivity|].
  destruct (split_lines rest); simpl in *; congruence.
Qed.

Lemma line_breaks_app (s t : string) :
  line_breaks (s +:+ t) = (line_breaks s + line_breaks t)%nat.
Proof.
  induction s as [|c rest IH]; [reflexivity|].
  change (String c rest +:+ t) with (String c (rest +:+ t)).
  simpl. rewrite IH. lia.
Qed.

Lemma no_line_break_count (s : string) :
  no_line_break s = true <-> line_breaks s = 0%nat.
Proof.
  induction s as [|c rest IH]; simpl; [tauto|].
  destruct (Ascii.eqb c LF); simpl; [split; [discriminate|lia]|exact IH].
Qed.

(** The lines of joined pieces: one per piece, and one more for each line
    break inside a piece. *)
Lemma split_join_lines_length (pieces : list string) :
  pieces <> [] ->
  length (split_lines (join_lines pieces))
  = (length pieces + list_sum (map line_breaks pieces))%nat.
Proof.
  intros Hne. rewrite split_lines_length.
  induction pieces as [|x xs IH]; [congruence|]. clear Hne.
  destruct xs as [|y ys].
  - change (join_lines [x]) with x.
    cbn [length map list_sum fold_right]. lia.
  - change (join_lines (x :: y :: ys))
      with (x +:+ String LF (join_lines (y :: ys))).
    rewrite line_breaks_app.
    change (line_breaks (String LF (join_lines (y :: ys))))
      with (S (line_breaks (join_lines (y :: ys)))).
    specialize (IH ltac:(discriminate)).
    cbn [length map list_sum fold_right] in *. lia.
Qed.

(** Every line of a whitespace-only string is whitespace-only. *)
Lemma is_blank_lines (s : string) :
  is_blank s = true -> Forall (fun l => is_blank l = true) (split_lines s).
Proof.
  induction s as [|c rest IH]; simpl.
  - intros _. repeat constructor.
  - intros H. apply andb_true_iff in H as [Hc Hrest].
    specialize (IH Hrest).
    destruct (Ascii.eqb c LF).
    + constructor; [reflexivity|exact IH].
    + destruct (split_lines rest) as [|l ls].
      * repeat constructor. simpl. rewrite Hc. reflexivity.
      * inversion IH; subst. constructor; [|assumption].
        simpl. rewrite Hc. simpl. assumption.
Qed.

End lines.

(** ** The pipeline *)
Section pipeline_facts.
Import llm_client pipeline.

Variable cfg : Config.
Variable client : LLMClient.
Variable question : string.

Ltac chain_cases :=
  repeat match goal with
         | |- context [match ?r with Ok _ => _ | Raise _ => _ end] =>
             destruct r eqn:?; cbn
         | |- context [match ?v with
                       | Proceed _ => _ | Reject _ => _ | Unparseable _ => _
                       end] =>
             destruct v eqn:?; cbn
         end.

Lemma chain_calls (sentences : list string) (i : nat) (sentence : string) :
  Forall (fun mc =>
            exists context,
              create_context_for_sentence sentences (Z.of_nat i)
                (sentences_before cfg) (sentences_after cfg) = Ok context
              /\ chain_call cfg question context sentence i mc)
    (sentence_chain cfg client question sentences i sentence).1.
Proof.
  unfold sentence_chain, selection_stage, disambiguation_stage,
    decomposition_stage, request, lift, mbind, traced_bind, mret, traced_ret.
  destruct (create_context_for_sentence _ _ _ _) as [context|e] eqn:Hctx;
    cbn; [|constructor].
  chain_cases;
    repeat (constructor;
            [exists context; split; [reflexivity|unfold chain_call; eauto]|]);
    constructor.
Qed.

Lemma chain_calls_sentence (sentences : list string) (i : nat)
    (sentence : string) :
  Forall (fun mc => call_sentence mc = i)
    (sentence_chain cfg client question sentences i sentence).1.
Proof.
  eapply Forall_impl; [apply chain_calls|].
  intros mc (context & _ & [->|[->|[rw ->]]]); reflexivity.
Qed.

(** The loop over a concatenation is the loop over its parts. *)
Lemma run_from_app (sentences : list string) (l1 l2 : list string) (i : nat) :
  run_from cfg client question sentences i (l1 ++ l2) =
    (((run_from cfg client question sentences i l1).1 ++
      (run_from cfg client question sentences (i + length l1) l2).1)%list,
     ((run_from cfg client question sentences i l1).2 ++
      (run_from cfg client question sentences (i + length l1) l2).2)%list).
Proof.
  revert i. induction l1 as [|s l1 IH]; intros i.
  - simpl. rewrite Nat.add_0_r.
    destruct (run_from _ _ _ _ _ l2); reflexivity.
  - simpl. rewrite IH.
    replace (i + S (length l1))%nat with (S i + length l1)%nat by lia.
    destruct (sentence_chain _ _ _ _ _ _) as [calls r].
    destruct (run_from _ _ _ _ (S i) l1) as [c1 r1].
    destruct (run_from _ _ _ _ _ l2) as [c2 r2].
    simpl. rewrite !app_assoc. reflexivity.
Qed.

Lemma run_from_cons (sentences : list string) (s : string)
    (rest : list string) (i : nat) :
  run_from cfg client question sentences i (s :: rest) =
    (((sentence_chain cfg client question sentences i s).1 ++
      (run_from cfg client question sentences (S i) rest).1)%list,
     (sentence_claims (sentence_chain cfg client question sentences i s).2 ++
      (run_from cfg client question sentences (S i) rest).2)%list).
Proof.
  simpl. destruct (sentence_chain _ _ _ _ _ _), (run_from _ _ _ _ _ rest).
  reflexivity.
Qed.

(** Every call of the loop started at [i] is for a sentence from [i] on. *)
Lemma run_from_calls_from (sentences todo : list string) (i : nat) :
  Forall (fun mc => (i <= call_sentence mc)%nat)
    (run_from cfg client question sentences i todo).1.
Proof.
  revert i. induction todo as [|s rest IH]; intros i.
  - constructor.
  - rewrite run_from_cons. cbn [fst]. apply Forall_app. split.
    + eapply Forall_impl; [apply chain_calls_sentence|].
      intros mc ->. cbn. lia.
    + eapply Forall_impl; [apply IH|]. cbn. intros mc H. lia.
Qed.

(** Every call of the loop over the first [k] sentences is for one of them. *)
Lemma run_from_calls_below (sentences todo : list string) (i : nat) :
  Forall (fun mc => (call_sentence mc < i + length todo)%nat)
    (run_from cfg client question sentences i todo).1.
Proof.
  revert i. induction todo as [|s rest IH]; intros i.
  - constructor.
  - rewrite run_from_cons. cbn [fst]. apply Forall_app. split.
    + eapply Forall_impl; [apply chain_calls_sentence|].
      intros mc ->. cbn. lia.
    + eapply Forall_impl; [apply IH|]. cbn. intros mc H. lia.
Qed.

(** The run, cut at sentence [k]. *)
Lemma run_from_at (sentences : list string) (k : nat) (s : string) :
  sentences !! k = Some s ->
  run_from cfg client question sentences 0 sentences =
    (((run_from cfg client question sentences 0 (take k sentences)).1 ++
      (sentence_chain cfg client question sentences k s).1 ++
      (run_from cfg client question sentences (S k) (drop (S k) sentences)).1)%list,
     ((run_from cfg client question sentences 0 (take k sentences)).2 ++
      sentence_claims (sentence_chain cfg client question sentences k s).2 ++
      (run_from cfg client question sentences (S k) (drop (S k) sentences)).2)%list).
Proof.
  intros Hk.
  rewrite <- (take_drop_middle sentences k s Hk) at 2.
  rewrite run_from_app, run_from_cons. cbn [fst snd].
  rewrite length_take_le by (apply lookup_lt_Some in Hk; lia).
  reflexivity.
Qed.

(** Every request of the loop is a stage request of some sentence, laid out
    with the question the pipeline was given. *)
Lemma run_from_calls_chain (sentences todo : list string) (i : nat) :
  Forall (fun mc => exists k sentence context,
                      chain_call cfg question context sentence k mc)
    (run_from cfg client question sentences i todo).1.
Proof.
  revert i. induction todo as [|s rest IH]; intros i.
  - constructor.
  - rewrite run_from_cons. cbn [fst]. apply Forall_app. split.
    + eapply Forall_impl; [apply chain_calls|].
      cbn. intros mc (context & _ & H). eauto.
    + apply IH.
Qed.

Lemma run_disambiguation_question (text : string) :
  Forall (fun mc => call_stage mc = Disambiguation ->
                    exists context sentence,
                      call_user mc
                      = disambiguation_content cfg context sentence question)
    (run cfg client question text).1.
Proof.
  eapply Forall_impl; [apply run_from_calls_chain|].
  cbn. intros mc (k & s & context & [->|[->|[rw ->]]]); cbn;
    intros H; try discriminate. eauto.
Qed.

(** A text that is empty or whitespace-only holds no sentence. *)
Lemma split_into_sentences_blank (text : string) :
  is_blank text = true -> split_into_sentences cfg text = [].
Proof.
  intros H. apply is_blank_lines in H. unfold split_into_sentences.
  induction H as [|l ls Hl _ IH]; cbn; [reflexivity|].
  rewrite Hl. exact IH.
Qed.

Lemma run_blank (text : string) :
  is_blank text = true -> run cfg client question text = ([], []).
Proof.
  intros H. unfold run. rewrite (split_into_sentences_blank _ H). reflexivity.
Qed.

(** A sentence the selection stage rejects: one request, no further stage. *)
Lemma chain_selection_reject (sentences : list string) (i : nat)
    (sentence context reason : string) (calls : list model_call) :
  create_context_for_sentence sentences (Z.of_nat i)
    (sentences_before cfg) (sentences_after cfg) = Ok context ->
  selection_stage cfg client i context sentence question
  = (calls, Ok (Reject reason)) ->
  sentence_chain cfg client question sentences i sentence
  = ([ModelCall Selection i (SELECTION_SYSTEM_PROMPT cfg)
        (selection_content cfg context sentence question)],
     Ok (Rejected Selection reason)).
Proof.
  intros Hctx Hsel. unfold sentence_chain. rewrite Hctx.
  unfold lift at 1. cbn [mbind traced_bind].
  rewrite Hsel.
  unfold selection_stage, request, lift, mbind, traced_bind in Hsel.
  destruct (make_request _ _ _); [|discriminate].
  injection Hsel as <- _. reflexivity.
Qed.

(** A failed chain yields no claims. *)
Lemma chain_failed_no_claims (r : result outcome) :
  chain_failed r = true -> sentence_claims r = [].
Proof. destruct r as [[]|]; simpl; congruence. Qed.

(** C2.  Let sentences [j], [j+1], [j+2] of the text be such that the chain
    of [j+1] fails (it raises, or a stage cannot read the model's answer)
    while those of [j] and [j+2] end decomposed.  Then the run does not stop:
    its claims are the claims of the sentences before [j], those of [j],
    those of [j+2], and those of the sentences after, in this order, with
    nothing from [j+1]; and the requests of all sentences, those after [j+1]
    included, are made. *)
Theorem run_isolates_failed_sentence (text : string) (j : nat)
    (s_prev s_k s_next : string) (c_prev c_next : list string) :
  split_into_sentences cfg text !! j = Some s_prev ->
  split_into_sentences cfg text !! S j = Some s_k ->
  split_into_sentences cfg text !! S (S j) = Some s_next ->
  (sentence_chain cfg client question (split_into_sentences cfg text)
     j s_prev).2 = Ok (Decomposed c_prev) ->
  chain_failed
    (sentence_chain cfg client question (split_into_sentences cfg text)
       (S j) s_k).2 = true ->
  (sentence_chain cfg client question (split_into_sentences cfg text)
     (S (S j)) s_next).2 = Ok (Decomposed c_next) ->
  (run cfg client question text).2
  = ((run_from cfg client question (split_into_sentences cfg text) 0
        (take j (split_into_sentences cfg text))).2
     ++ c_prev ++ c_next
     ++ (run_from cfg client question (split_into_sentences cfg text)
           (S (S (S j))) (drop (S (S (S j))) (split_into_sentences cfg text))).2)%list
  /\ (run cfg client question text).1
     = ((run_from cfg client question (split_into_sentences cfg text) 0
           (take j (split_into_sentences cfg text))).1
        ++ (sentence_chain cfg client question (split_into_sentences cfg text)
              j s_prev).1
        ++ (sentence_chain cfg client question (split_into_sentences cfg text)
              (S j) s_k).1
        ++ (sentence_chain cfg client question (split_into_sentences cfg text)
              (S (S j)) s_next).1
        ++ (run_from cfg client question (split_into_sentences cfg text)
              (S (S (S j))) (drop (S (S (S j))) (split_into_sentences cfg text))).1)%list.
Proof.
  intros Hprev Hk Hnext Hok_prev Hfail Hok_next.
  unfold run. set (sentences := split_into_sentences cfg text) in *.
  rewrite (run_from_at sentences j s_prev Hprev).
  rewrite (drop_S sentences s_k (S j) Hk).
  rewrite (drop_S sentences s_next (S (S j)) Hnext).
  rewrite !run_from_cons. cbn [fst snd].
  rewrite Hok_prev, Hok_next, (chain_failed_no_claims _ Hfail).
  split; reflexivity.
Qed.

(** C7.  When the selection stage rejects sentence [i], the chain of [i] is
    the one selection request and ends rejected; in the whole run every
    request made for sentence [i] is a selection request (neither the
    disambiguation nor the decomposition stage is invoked for it), and the
    claims of the run are those of the other sentences. *)
Theorem rejected_sentence_short_circuits (text : string) (i : nat)
    (sentence context reason : string) (calls : list model_call) :
  split_into_sentences cfg text !! i = Some sentence ->
  create_context_for_sentence (split_into_sentences cfg text) (Z.of_nat i)
    (sentences_before cfg) (sentences_after cfg) = Ok context ->
  selection_stage cfg client i context sentence question
  = (calls, Ok (Reject reason)) ->
  sentence_chain cfg client question (split_into_sentences cfg text) i sentence
  = ([ModelCall Selection i (SELECTION_SYSTEM_PROMPT cfg)
        (selection_content cfg context sentence question)],
     Ok (Rejected Selection reason))
  /\ Forall (fun mc => call_sentence mc = i -> call_stage mc = Selection)
       (run cfg client question text).1
  /\ (run cfg client question text).2
     = ((run_from cfg client question (split_into_sentences cfg text) 0
           (take i (split_into_sentences cfg text))).2
        ++ (run_from cfg client question (split_into_sentences cfg text)
              (S i) (drop (S i) (split_into_sentences cfg text))).2)%list.
Proof.
  intros Hi Hctx Hsel.
  pose proof (chain_selection_reject _ _ _ _ _ _ Hctx Hsel) as Hchain.
  split; [exact Hchain|].
  unfold run. set (sentences := split_into_sentences cfg text) in *.
  rewrite (run_from_at sentences i sentence Hi), Hchain. cbn [fst snd].
  split; [|reflexivity].
  rewrite !Forall_app. repeat split.
  - eapply Forall_impl; [apply run_from_calls_below|].
    cbn. intros mc Hlt Heq.
    rewrite length_take_le in Hlt by (apply lookup_lt_Some in Hi; lia). lia.
  - repeat constructor.
  - eapply Forall_impl; [apply run_from_calls_from|].
    cbn. intros mc Hle Heq. lia.
Qed.

End pipeline_facts.

Lemma run_isolates_failed_sentence_witness :
  pipeline.chain_failed
    (pipeline.sentence_chain standins.config standins.client "Q"
       ["Alpha is one."; "Boom goes two."; "Gamma is three."]
       1 "Boom goes two.").2 = true
  /\ (pipeline.run standins.config standins.client "Q"
        "Alpha is one. Boom goes two. Gamma is three.").2
     = ["Alpha is one."; "Gamma is three."].
Proof.
  split; [reflexivity|].
  apply (run_isolates_failed_sentence standins.config standins.client "Q"
           "Alpha is one. Boom goes two. Gamma is three." 0
           "Alpha is one." "Boom goes two." "Gamma is three."
           ["Alpha is one."] ["Gamma is three."]);
    reflexivity.
Defined.

Lemma rejected_sentence_short_circuits_witness :
  Forall (fun mc => pipeline.call_sentence mc = 1%nat ->
                    pipeline.call_stage mc = pipeline.Selection)
    (pipeline.run standins.config standins.client "Q"
       "Alpha is one. I think this is nice. Gamma is three.").1
  /\ (pipeline.run standins.config standins.client "Q"
        "Alpha is one. I think this is nice. Gamma is three.").2
     = ["Alpha is one."; "Gamma is three."].
Proof.
  pose proof (rejected_sentence_short_circuits standins.config standins.client
                "Q" "Alpha is one. I think this is nice. Gamma is three."
                1 "I think this is nice."
                ("Alpha is one." +:+ ch LF +:+ "I think this is nice."
                 +:+ ch LF +:+ "Gamma is three.")
                "no verifiable claim"
                [pipeline.ModelCall pipeline.Selection 1 "SELECT"
                   ("I think this is nice." +:+ ch LF +:+ "Q" +:+ ch LF +:+
                    "Alpha is one." +:+ ch LF +:+ "I think this is nice."
                    +:+ ch LF +:+ "Gamma is three.")]
                eq_refl eq_refl eq_refl) as (_ & Hcalls & Hclaims).
  split; [exact Hcalls|exact Hclaims].
Defined.


(** ** The context window *)
Section context_window.
Import pipeline.

Lemma omap_total {A B} (f : A -> option B) (l : list A) :
  Forall (fun x => is_Some (f x)) l ->
  Forall2 (fun x y => f x = Some y) l (omap f l).
Proof.
  induction 1 as [|x l [y Hy] _ IH]; cbn.
  - constructor.
  - rewrite Hy. cbn. constructor; assumption.
Qed.

Lemma window_indices_bounds (n i before after : Z) :
  Forall (fun j => Z.max 0 (i - before) <= j <= Z.min (n - 1) (i + after))
    (window_indices n i before after).
Proof.
  unfold window_indices. apply Forall_seqZ. intros j Hj. lia.
Qed.

Lemma window_indices_length (n i before after : Z) :
  0 <= i < n -> 0 <= before -> 0 <= after ->
  Z.of_nat (length (window_indices n i before after))
  = Z.min i before + Z.min (n - 1 - i) after + 1.
Proof.
  intros Hi Hb Ha. unfold window_indices. rewrite length_seqZ. lia.
Qed.

Lemma window_lookups (sentences : list string) (i before after : Z) :
  Forall (fun j => 0 <= j <= Z.of_nat (length sentences) - 1
                   /\ is_Some (sentences !! Z.to_nat j))
    (window_indices (Z.of_nat (length sentences)) i before after).
Proof.
  eapply Forall_impl; [apply window_indices_bounds|].
  cbn. intros j Hj. split; [lia|].
  apply lookup_lt_is_Some. lia.
Qed.

(** C6 (as amended).  For a valid target index and non-negative window sizes
    the builder does not fail; the sentences it joins are those at the
    consecutive indices [i - min(i,b) .. i + min(n-1-i,a)], each within
    [0, n-1]; there are exactly [min(i,b) + min(n-1-i,a) + 1] of them.  The
    context has one line for each of them and one more for every line break
    inside one of them: exactly [min(i,b) + min(n-1-i,a) + 1] lines when the
    sentences of the window hold no line break. *)
Theorem context_window_clamped (sentences : list string) (i before after : Z) :
  0 <= i < Z.of_nat (length sentences) -> 0 <= before -> 0 <= after ->
  exists window : list string,
    create_context_for_sentence sentences i before after
    = Ok (join_lines window)
    /\ window_indices (Z.of_nat (length sentences)) i before after
       = seqZ (i - Z.min i before)
           (Z.min i before + Z.min (Z.of_nat (length sentences) - 1 - i) after + 1)
    /\ Forall2 (fun j s => 0 <= j <= Z.of_nat (length sentences) - 1
                           /\ sentences !! Z.to_nat j = Some s)
         (window_indices (Z.of_nat (length sentences)) i before after) window
    /\ Z.of_nat (length window)
       = Z.min i before + Z.min (Z.of_nat (length sentences) - 1 - i) after + 1
    /\ Z.of_nat (length (split_lines (join_lines window)))
       = Z.min i before + Z.min (Z.of_nat (length sentences) - 1 - i) after + 1
         + Z.of_nat (list_sum (map line_breaks window))
    /\ (Forall (fun s => no_line_break s = true) window ->
        Z.of_nat (length (split_lines (join_lines window)))
        = Z.min i before + Z.min (Z.of_nat (length sentences) - 1 - i) after + 1).
Proof.
  intros Hi Hb Ha.
  set (n := Z.of_nat (length sentences)) in *.
  set (idx := window_indices n i before after).
  set (window := omap (fun j => sentences !! Z.to_nat j) idx).
  assert (Hlook : Forall2 (fun j s => 0 <= j <= n - 1
                                      /\ sentences !! Z.to_nat j = Some s)
                    idx window).
  { pose proof (window_lookups sentences i before after) as Hw.
    fold n idx in Hw. subst window. clear -Hw.
    induction Hw as [|j l [Hj [s Hs]] _ IH]; cbn.
    - constructor.
    - rewrite Hs. cbn. constructor; [split; assumption|exact IH]. }
  assert (Hlen : Z.of_nat (length window)
                 = Z.min i before + Z.min (n - 1 - i) after + 1).
  { rewrite <- (Forall2_length _ _ _ Hlook).
    apply window_indices_length; assumption. }
  assert (Hlines : Z.of_nat (length (split_lines (join_lines window)))
                   = Z.min i before + Z.min (n - 1 - i) after + 1
                     + Z.of_nat (list_sum (map line_breaks window))).
  { rewrite split_join_lines_length by (intros ->; cbn in Hlen; lia). lia. }
  exists window. split; [|split; [|split; [|split; [|split]]]].
  - unfold create_context_for_sentence. fold n idx window.
    replace ((0 <=? i) && (i <? n)) with true; [reflexivity|].
    symmetry. apply andb_true_iff. split; [apply Z.leb_le|apply Z.ltb_lt]; lia.
  - unfold idx, window_indices. f_equal; lia.
  - exact Hlook.
  - exact Hlen.
  - exact Hlines.
  - intros Hnb. rewrite Hlines.
    replace (list_sum (map line_breaks window)) with 0%nat; [lia|].
    clear -Hnb. induction Hnb as [|s l Hs _ IH]; [reflexivity|].
    apply no_line_break_count in Hs. cbn. rewrite Hs. exact IH.
Qed.

Lemma context_window_clamped_witness :
  exists window : list string,
    create_context_for_sentence ["a"; "b"; "c"; "d"] 3 2 5
    = Ok (join_lines window)
    /\ window_indices 4 3 2 5 = seqZ 1 3
    /\ Forall2 (fun j s => 0 <= j <= 3
                           /\ ["a"; "b"; "c"; "d"] !! Z.to_nat j = Some s)
         (window_indices 4 3 2 5) window
    /\ Z.of_nat (length window) = 3
    /\ Z.of_nat (length (split_lines (join_lines window)))
       = 3 + Z.of_nat (list_sum (map line_breaks window))
    /\ (Forall (fun s => no_line_break s = true) window ->
        Z.of_nat (length (split_lines (join_lines window))) = 3).
Proof.
  apply (context_window_clamped ["a"; "b"; "c"; "d"] 3 2 5); simpl; lia.
Defined.

(** C6, as stated, fails: a sentence that holds a line break takes two lines
    of the context, so that the window of one sentence is a context of two
    lines where the formula gives one. *)
Lemma context_lines_with_line_break :
  create_context_for_sentence ["a" +:+ ch LF +:+ "b"] 0 0 0
  = Ok ("a" +:+ ch LF +:+ "b")
  /\ length (split_lines ("a" +:+ ch LF +:+ "b")) = 2%nat
  /\ Z.min 0 0 + Z.min (1 - 1 - 0) 0 + 1 = 1.
Proof. repeat split. Qed.

(** The text of [test_pipeline_basic] holds two lines.  The segmenter makes
    the line break a boundary; how many sentences it returns is left to the
    detector: three, and a context of three lines for the middle one, with a
    detector that finds two sentences in the first line and one in the
    second. *)
Lemma test_text_segmentation (cfg : Config) :
  split_into_sentences cfg test_claimify.test_text
  = (sent_tokenize cfg
       "This is the first sentence. This is the second sentence."
     ++ sent_tokenize cfg "This is a third sentence on a new line.")%list.
Proof.
  unfold split_into_sentences.
  change (split_lines test_claimify.test_text)
    with ["This is the first sentence. This is the second sentence.";
          "This is a third sentence on a new line."].
  cbn [flat_map].
  change (is_blank "This is the first sentence. This is the second sentence.")
    with false.
  change (is_blank "This is a third sentence on a new line.") with false.
  cbn iota. rewrite app_nil_r. reflexivity.
Qed.

End context_window.

(** ** The JSON payload *)
Section json.

Lemma append_assoc (a b c : string) : (a +:+ b) +:+ c = a +:+ (b +:+ c).
Proof.
  induction a as [|x a IH]; [reflexivity|].
  change (String x ((a +:+ b) +:+ c) = String x (a +:+ (b +:+ c))).
  rewrite IH. reflexivity.
Qed.

Lemma scan_escape_char (c : ascii) (tail : string) :
  json_scan InString (json_escape_char c +:+ tail)
  = push c (json_scan InString tail).
Proof.
  destruct c as [[] [] [] [] [] [] [] []]; reflexivity.
Qed.

Lemma scan_escape (s tail : string) :
  json_scan InString (json_escape s +:+ String DQUOTE tail)
  = match json_scan AfterString tail with
    | Some xs => Some (s :: xs)
    | None => None
    end.
Proof.
  induction s as [|c s IH].
  - reflexivity.
  - cbn [json_escape]. rewrite append_assoc, scan_escape_char, IH.
    destruct (json_scan AfterString tail); reflexivity.
Qed.

Lemma scan_json_string (first : bool) (s tail : string) :
  json_scan (if first then AtFirst else AfterComma) (json_string s +:+ tail)
  = match json_scan AfterString tail with
    | Some xs => Some (s :: xs)
    | None => None
    end.
Proof.
  unfold json_string.
  change (String DQUOTE ?a +:+ tail) with (String DQUOTE (a +:+ tail)).
  rewrite append_assoc.
  change (String DQUOTE tail) with (ch DQUOTE +:+ tail).
  rewrite <- (scan_escape s tail). destruct first; reflexivity.
Qed.

Lemma scan_elements (first : bool) (x : string) (l : list string) :
  json_scan (if first then AtFirst else AfterComma)
    (String.concat json_separator (map json_string (x :: l))
     +:+ ch LF +:+ "]")
  = Some (x :: l).
Proof.
  revert first x. induction l as [|y l IH]; intros first x.
  - cbn [map String.concat]. rewrite scan_json_string. reflexivity.
  - change (String.concat json_separator (map json_string (x :: y :: l)))
      with (json_string x +:+ json_separator
            +:+ String.concat json_separator (map json_string (y :: l))).
    rewrite !append_assoc, scan_json_string.
    change (json_scan AfterString (json_separator +:+ ?r))
      with (json_scan (if false then AtFirst else AfterComma) r).
    rewrite IH. reflexivity.
Qed.

(** Reading back what [json.dumps] wrote gives the list. *)
Lemma json_loads_dumps (claims : list string) :
  json_loads (json_dumps claims) = Some claims.
Proof.
  destruct claims as [|x l]; [reflexivity|].
  unfold json_loads, json_dumps.
  change (json_scan AtStart ("[" +:+ ch LF +:+ "  " +:+ ?r))
    with (json_scan (if true then AtFirst else AfterComma) r).
  apply scan_elements.
Qed.

End json.

(** ** The tool handler *)
Section handler.
Import claimify_server.

Variable W : World.
Variable arguments : gmap string string.

Lemma alloc_lookup (l : list object) (o : object) :
  (l ++ [o])%list !! length l = Some o.
Proof. rewrite lookup_app_r by lia. rewrite Nat.sub_diag. reflexivity. Qed.

Lemma store_update (l : list object) (a b x : object) :
  <[(length l + 1)%nat := x]> ((l ++ [a]) ++ [b])%list = (l ++ [a; x])%list.
Proof.
  rewrite <- app_assoc. simpl.
  rewrite insert_app_r_alt by lia.
  replace (length l + 1 - length l)%nat with 1%nat by lia. reflexivity.
Qed.

(** What an invocation does when the client can be constructed. *)
Lemma call_tool_constructed (st : server_state) (c : llm_client.LLMClient) :
  LLMClient_init W = Ok c ->
  call_tool W "extract_claims" arguments st =
    (let text_to_process := get arguments "text_to_process" EmptyString in
     let question := get arguments "question" NO_QUESTION in
     let out := pipeline.run (config W) c question text_to_process in
     ({| heap :=
           (heap st ++
            [LLMClientObj c;
             ClaimifyPipelineObj
               {| run_client := length (heap st);
                  run_question := question;
                  run_text := Some text_to_process;
                  run_sentences :=
                    pipeline.split_into_sentences (config W) text_to_process;
                  run_claims := out.2 |}])%list;
         requests := (requests st ++ out.1)%list |},
      Ok [ {| type := "text"; text := json_dumps out.2 |} ])).
Proof.
  intros Hc. destruct st as [h rq].
  unfold call_tool, call_tool_in, classes, try_except, LLMClient,
    ClaimifyPipeline, run, alloc, mbind, M_bind, mret, M_ret.
  cbn [new_LLMClient new_ClaimifyPipeline ClaimifyPipeline_run].
  rewrite Hc. cbn -[pipeline.run json_dumps get].
  rewrite alloc_lookup.
  cbn -[pipeline.run json_dumps get].
  rewrite length_app. cbn -[pipeline.run json_dumps get].
  rewrite lookup_app_l by (rewrite length_app; simpl; lia).
  rewrite alloc_lookup.
  destruct (pipeline.run _ _ _ _) as [calls claims]. cbn.
  rewrite store_update. reflexivity.
Qed.

(** What an invocation does when [LLMClient()] raises. *)
Lemma call_tool_not_constructed (st : server_state) (e : exn) :
  LLMClient_init W = Raise e ->
  call_tool W "extract_claims" arguments st =
    (st, Ok [ {| type := "text";
                 text := "Error during claim extraction: " +:+ exn_str e |} ]).
Proof.
  intros Hc.
  unfold call_tool, call_tool_in, classes, try_except, LLMClient, raise,
    mbind, M_bind, mret, M_ret.
  cbn [new_LLMClient]. rewrite Hc. reflexivity.
Qed.

Lemma call_tool_unknown (name : string) (st : server_state) :
  String.eqb name "extract_claims" = false ->
  call_tool W name arguments st
  = (st, Raise (Exception "ValueError" ("Unknown tool: " +:+ name))).
Proof. intros H. unfold call_tool, call_tool_in. rewrite H. reflexivity. Qed.

(** The response does not depend on the state the invocation starts in. *)
Lemma call_tool_response (name : string) (st st' : server_state) :
  (call_tool W name arguments st).2 = (call_tool W name arguments st').2.
Proof.
  destruct (String.eqb name "extract_claims") eqn:Hn.
  - apply String.eqb_eq in Hn as ->.
    destruct (LLMClient_init W) as [c|e] eqn:Hc.
    + rewrite !(call_tool_constructed _ _ Hc). reflexivity.
    + rewrite !(call_tool_not_constructed _ _ Hc). reflexivity.
  - rewrite !call_tool_unknown by exact Hn. reflexivity.
Qed.

End handler.

Section registered.
Import claimify_server.

Variable K : Classes.
Variable arguments : gmap string string.
Variable st : server_state.

(** A request without ["text_to_process"] does not pass the validation: the
    function is not called. *)
Lemma handle_without_text :
  arguments !! "text_to_process" = None ->
  handle_call_tool K "extract_claims" arguments st
  = (st,
     make_error_result
       "Input validation error: 'text_to_process' is a required property").
Proof.
  intros Hnone. unfold handle_call_tool, validation_error. cbn.
  rewrite Hnone. reflexivity.
Qed.

(** A request with ["text_to_process"] passes it. *)
Lemma handle_with_text (text : string) :
  arguments !! "text_to_process" = Some text ->
  handle_call_tool K "extract_claims" arguments st
  = match call_tool_in K "extract_claims" arguments st with
    | (st', Ok results) => (st', {| content := results; isError := false |})
    | (st', Raise e) => (st', make_error_result (exn_str e))
    end.
Proof.
  intros Hsome. unfold handle_call_tool, validation_error. cbn.
  rewrite Hsome. reflexivity.
Qed.

(** A tool that is not listed is not validated. *)
Lemma handle_unlisted (tool_name : string) :
  String.eqb tool_name "extract_claims" = false ->
  handle_call_tool K tool_name arguments st
  = (st, make_error_result ("Unknown tool: " +:+ tool_name)).
Proof.
  intros Hn. unfold handle_call_tool, call_tool_in, list_tools.
  cbn [List.find name]. rewrite (String.eqb_sym "extract_claims"), Hn.
  reflexivity.
Qed.

(** The three calls, one after the other. *)
Lemma extraction_steps :
  extraction K arguments st
  = match new_LLMClient K st with
    | (st1, Raise e) => (st1, Raise e)
    | (st1, Ok llm_client) =>
        match
          new_ClaimifyPipeline K llm_client
            (get arguments "question" NO_QUESTION) st1
        with
        | (st2, Raise e) => (st2, Raise e)
        | (st2, Ok pipeline) =>
            ClaimifyPipeline_run K pipeline
              (get arguments "text_to_process" EmptyString) st2
        end
    end.
Proof.
  unfold extraction, mbind, M_bind.
  destruct (new_LLMClient K st) as [st1 [c|e]]; [|reflexivity].
  destruct (new_ClaimifyPipeline K c _ st1) as [st2 [p|e]]; reflexivity.
Qed.

Lemma call_tool_in_extraction :
  call_tool_in K "extract_claims" arguments st
  = match extraction K arguments st with
    | (st', Ok claims) =>
        match dumps claims with
        | Ok result => (st', Ok [ {| type := "text"; text := result |} ])
        | Raise e =>
            (st', Ok [ {| type := "text";
                          text := "Error during claim extraction: "
                                  +:+ exn_str e |} ])
        end
    | (st', Raise e) =>
        (st', Ok [ {| type := "text";
                      text := "Error during claim extraction: "
                              +:+ exn_str e |} ])
    end.
Proof.
  unfold call_tool_in, extraction, try_except, of_result, mbind, M_bind,
    mret, M_ret.
  cbn [String.eqb Ascii.eqb Bool.eqb].
  destruct (new_LLMClient K st) as [st1 [c|e]]; [|reflexivity].
  destruct (new_ClaimifyPipeline K c _ st1) as [st2 [p|e]]; [|reflexivity].
  destruct (ClaimifyPipeline_run K p _ st2) as [st3 [claims|e]];
    [|reflexivity].
  destruct (dumps claims); reflexivity.
Qed.

(** C1 (as amended).  A request for [extract_claims] is always answered with
    exactly one text item, and the function never raises.  When the arguments
    lack ["text_to_process"] the server's validation answers with an error
    result and the function is not called.  Otherwise the item is not flagged
    as an error.  When [LLMClient()], [ClaimifyPipeline(...)] and [run(...)]
    all return and [run] returns a list of strings, its text is [json.dumps]
    of that list and reads back as exactly that list.  When one of the three
    raises [e], or [json.dumps] does on what [run] returned, it is the
    message ["Error during claim extraction: " + str(e)], which does not read
    as a JSON array.  The payload is a claim list exactly when the three
    calls return a value that [json.dumps] writes as an array of strings. *)
Theorem call_tool_payload :
  (exists item,
     (call_tool_in K "extract_claims" arguments st).2 = Ok [item]
     /\ type item = "text")
  /\ (forall st' claims,
        extraction K arguments st = (st', Ok (Strings claims)) ->
        call_tool_in K "extract_claims" arguments st
        = (st', Ok [ {| type := "text"; text := json_dumps claims |} ])
        /\ json_loads (json_dumps claims) = Some claims)
  /\ (forall st' e,
        extraction K arguments st = (st', Raise e)
        \/ extraction K arguments st = (st', Ok (Other (Raise e))) ->
        call_tool_in K "extract_claims" arguments st
        = (st', Ok [ {| type := "text";
                        text := "Error during claim extraction: "
                                +:+ exn_str e |} ])
        /\ json_loads ("Error during claim extraction: " +:+ exn_str e)
           = None)
  /\ (forall st' written,
        extraction K arguments st = (st', Ok (Other (Ok written))) ->
        call_tool_in K "extract_claims" arguments st
        = (st', Ok [ {| type := "text"; text := written |} ]))
  /\ (claim_list_payload (call_tool_in K "extract_claims" arguments st).2
      <-> exists st' returned written claims,
            extraction K arguments st = (st', Ok returned)
            /\ dumps returned = Ok written
            /\ json_loads written = Some claims)
  /\ extraction K arguments st
     = match new_LLMClient K st with
       | (st1, Raise e) => (st1, Raise e)
       | (st1, Ok llm_client) =>
           match
             new_ClaimifyPipeline K llm_client
               (get arguments "question" NO_QUESTION) st1
           with
           | (st2, Raise e) => (st2, Raise e)
           | (st2, Ok pipeline) =>
               ClaimifyPipeline_run K pipeline
                 (get arguments "text_to_process" EmptyString) st2
           end
       end
  /\ match arguments !! "text_to_process" with
     | None =>
         handle_call_tool K "extract_claims" arguments st
         = (st,
            {| content :=
                 [ {| type := "text";
                      text := "Input validation error: 'text_to_process' is a required property" |} ];
               isError := true |})
     | Some _ =>
         exists st' item,
           call_tool_in K "extract_claims" arguments st = (st', Ok [item])
           /\ handle_call_tool K "extract_claims" arguments st
              = (st', {| content := [item]; isError := false |})
     end.
Proof.
  pose proof call_tool_in_extraction as Hcall.
  split; [|split; [|split; [|split; [|split; [|split]]]]].
  - rewrite Hcall.
    destruct (extraction K arguments st) as [st' [claims|e]];
      [destruct (dumps claims)|]; eexists; split; reflexivity.
  - intros st' claims He. rewrite Hcall, He.
    split; [reflexivity|apply json_loads_dumps].
  - intros st' e [He|He]; rewrite Hcall, He; split; reflexivity.
  - intros st' written He. rewrite Hcall, He. reflexivity.
  - rewrite Hcall.
    destruct (extraction K arguments st) as [st' [returned|e]]; cbn [snd].
    + destruct (dumps returned) as [written|e] eqn:Hd; cbn [snd].
      * split.
        -- intros (payload & claims & Heq & Hloads). injection Heq as <-.
           eauto 10.
        -- intros (st'' & returned' & written' & claims & Heq & Hd' & Hl).
           injection Heq as <- <-. rewrite Hd in Hd'. injection Hd' as <-.
           eexists _, _. split; [reflexivity|exact Hl].
      * split.
        -- intros (payload & claims & Heq & Hloads).
           injection Heq as <-. discriminate Hloads.
        -- intros (st'' & returned' & written' & claims & Heq & Hd' & Hl).
           injection Heq as <- <-. rewrite Hd in Hd'. discriminate Hd'.
    + split.
      * intros (payload & claims & Heq & Hloads).
        injection Heq as <-. discriminate Hloads.
      * intros (st'' & returned & written & claims & Heq & _).
        discriminate Heq.
  - apply extraction_steps.
  - destruct (arguments !! "text_to_process") as [text|] eqn:Ht.
    + rewrite (handle_with_text text Ht), Hcall.
      destruct (extraction K arguments st) as [st' [claims|e]];
        [destruct (dumps claims)|]; eexists _, _; split; reflexivity.
    + apply (handle_without_text Ht).
Qed.

End registered.

Section invocations.
Import claimify_server.

Variable W : World.

Lemma serve_app (l1 l2 : list (Classes * string * gmap string string))
    (st : server_state) :
  serve (l1 ++ l2) st
  = ((serve l2 (serve l1 st).1).1,
     ((serve l1 st).2 ++ (serve l2 (serve l1 st).1).2)%list).
Proof.
  revert st. induction l1 as [|[[K tool_name] arguments] l1 IH]; intros st;
    simpl.
  - destruct (serve l2 st); reflexivity.
  - destruct (handle_call_tool K tool_name arguments st) as [st1 r].
    rewrite IH. destruct (serve l1 st1) as [st2 rs]. simpl.
    destruct (serve l2 st2); reflexivity.
Qed.

(** The result of a request does not depend on the state it is handled
    in. *)
Lemma handle_call_tool_result (tool_name : string)
    (arguments : gmap string string) (st st' : server_state) :
  (handle_call_tool (classes W) tool_name arguments st).2
  = (handle_call_tool (classes W) tool_name arguments st').2.
Proof.
  unfold handle_call_tool.
  destruct (_ ≫= _) as [message|]; [reflexivity|].
  pose proof (call_tool_response W arguments tool_name st st') as H.
  unfold call_tool in H.
  destruct (call_tool_in (classes W) tool_name arguments st) as [st1 r1].
  destruct (call_tool_in (classes W) tool_name arguments st') as [st2 r2].
  cbn in H. subst r2. destruct r1; reflexivity.
Qed.


(** The handler looks at its arguments through the two [get]s only. *)
Lemma call_tool_gets (name : string) (a1 a2 : gmap string string)
    (st : server_state) :
  get a1 "text_to_process" EmptyString = get a2 "text_to_process" EmptyString ->
  get a1 "question" NO_QUESTION = get a2 "question" NO_QUESTION ->
  call_tool W name a1 st = call_tool W name a2 st.
Proof.
  intros H1 H2. unfold call_tool, call_tool_in. rewrite H1, H2. reflexivity.
Qed.

(** C3.  When the arguments hold no ["question"], the invocation is the one
    with the question ["The user did not provide a question."] passed
    explicitly; if the client can be constructed, the pipeline instance
    created holds that string as its question, the run is the pipeline's run
    with that question, and every disambiguation request of the run is laid
    out with it.  The string is the default the tool's schema declares. *)
Theorem omitted_question_is_placeholder (arguments : gmap string string)
    (st : server_state) :
  arguments !! "question" = None ->
  call_tool W "extract_claims" arguments st
  = call_tool W "extract_claims"
      (<["question" := "The user did not provide a question."]> arguments) st
  /\ (forall c, LLMClient_init W = Ok c ->
        (exists p,
           heap (call_tool W "extract_claims" arguments st).1
             !! S (length (heap st)) = Some (ClaimifyPipelineObj p)
           /\ run_question p = "The user did not provide a question.")
        /\ requests (call_tool W "extract_claims" arguments st).1
           = (requests st
              ++ (pipeline.run (config W) c
                    "The user did not provide a question."
                    (get arguments "text_to_process" EmptyString)).1)%list
        /\ Forall (fun mc =>
                     pipeline.call_stage mc = pipeline.Disambiguation ->
                     exists context sentence,
                       pipeline.call_user mc
                       = pipeline.disambiguation_content (config W) context
                           sentence "The user did not provide a question.")
             (pipeline.run (config W) c
                "The user did not provide a question."
                (get arguments "text_to_process" EmptyString)).1)
  /\ Exists (fun t =>
               name t = "extract_claims"
               /\ Exists (fun pr =>
                            prop_name pr = "question"
                            /\ prop_default pr
                               = Some "The user did not provide a question.")
                    (properties (inputSchema t)))
       list_tools.
Proof.
  intros Hq.
  assert (Hget : get arguments "question" NO_QUESTION
                 = "The user did not provide a question.").
  { unfold get. rewrite Hq. reflexivity. }
  split; [|split].
  - apply call_tool_gets; unfold get.
    + rewrite lookup_insert_ne by discriminate. reflexivity.
    + rewrite Hq, lookup_insert_eq. reflexivity.
  - intros c Hc. rewrite (call_tool_constructed _ _ _ _ Hc). cbn [fst heap requests].
    rewrite Hget. split; [|split].
    + eexists. split.
      * rewrite lookup_app_r by lia.
        replace (S (length (heap st)) - length (heap st))%nat with 1%nat
          by lia.
        reflexivity.
      * reflexivity.
    + reflexivity.
    + apply run_disambiguation_question.
  - unfold list_tools. constructor. split; [reflexivity|].
    unfold inputSchema, properties. apply Exists_cons_tl. constructor.
    split; reflexivity.
Qed.

(** C8 (as amended).  A text that is empty or whitespace-only has no
    sentence, and the pipeline's run on it returns no claim and sends no
    request; a request that carries such a text passes the validation and,
    when the client can be constructed, is answered with the empty JSON
    array, not flagged as an error, without any request to the model.  A
    request whose arguments hold no ["text_to_process"] is not treated as
    empty input: the validation answers it with an error result, and the
    function, whose own fallback would read the text as empty, is not
    called. *)
Theorem blank_input_no_claims (text : string)
    (arguments : gmap string string) (st : server_state) :
  is_blank text = true ->
  arguments !! "text_to_process" = None ->
  pipeline.split_into_sentences (config W) text = []
  /\ (forall client question,
        pipeline.run (config W) client question text = ([], []))
  /\ handle_call_tool (classes W) "extract_claims" arguments st
     = (st,
        {| content :=
             [ {| type := "text";
                  text := "Input validation error: 'text_to_process' is a required property" |} ];
           isError := true |})
  /\ call_tool W "extract_claims" arguments st
     = call_tool W "extract_claims"
         (<["text_to_process" := EmptyString]> arguments) st
  /\ (forall c, LLMClient_init W = Ok c ->
        (handle_call_tool (classes W) "extract_claims"
           (<["text_to_process" := text]> arguments) st).2
        = {| content := [ {| type := "text"; text := "[]" |} ];
             isError := false |}
        /\ requests (handle_call_tool (classes W) "extract_claims"
                       (<["text_to_process" := text]> arguments) st).1
           = requests st).
Proof.
  intros Hblank Hnone. split; [|split; [|split; [|split]]].
  - apply split_into_sentences_blank, Hblank.
  - intros client question. apply run_blank, Hblank.
  - apply (handle_without_text _ _ _ Hnone).
  - apply call_tool_gets; unfold get.
    + rewrite Hnone, lookup_insert_eq. reflexivity.
    + rewrite lookup_insert_ne by discriminate. reflexivity.
  - intros c Hc.
    rewrite (handle_with_text _ _ _ text) by apply lookup_insert_eq.
    fold (call_tool W "extract_claims"
            (<["text_to_process" := text]> arguments) st).
    rewrite (call_tool_constructed _ _ _ _ Hc).
    assert (Hg : get (<["text_to_process" := text]> arguments)
                   "text_to_process" EmptyString = text).
    { unfold get. rewrite lookup_insert_eq. reflexivity. }
    cbv zeta. rewrite Hg. rewrite (run_blank (config W) c _ text Hblank).
    cbn. rewrite app_nil_r. split; reflexivity.
Qed.

End invocations.

Lemma omitted_question_is_placeholder_witness :
  claimify_server.call_tool standins.world "extract_claims"
    {[ "text_to_process" := "Alpha is one." ]} claimify_server.initial_state
  = claimify_server.call_tool standins.world "extract_claims"
      (<["question" := "The user did not provide a question."]>
         {[ "text_to_process" := "Alpha is one." ]})
      claimify_server.initial_state.
Proof.
  apply (omitted_question_is_placeholder standins.world
           {[ "text_to_process" := "Alpha is one." ]}
           claimify_server.initial_state).
  reflexivity.
Defined.

Lemma blank_input_no_claims_witness :
  pipeline.split_into_sentences standins.config ("  " +:+ ch LF +:+ " ") = []
  /\ (claimify_server.handle_call_tool
        (claimify_server.classes standins.world) "extract_claims"
        {[ "text_to_process" := "  " +:+ ch LF +:+ " "; "question" := "Why?" ]}
        claimify_server.initial_state).2
     = {| claimify_server.content :=
            [ {| claimify_server.type := "text";
                 claimify_server.text := "[]" |} ];
          claimify_server.isError := false |}.
Proof.
  assert (Hnone : ({[ "question" := "Why?" ]} : gmap string string)
                  !! "text_to_process" = None) by reflexivity.
  destruct (blank_input_no_claims standins.world ("  " +:+ ch LF +:+ " ")
              {[ "question" := "Why?" ]} claimify_server.initial_state
              eq_refl Hnone) as (Hseg & _ & _ & _ & H).
  split; [exact Hseg|]. apply (H standins.client eq_refl).
Defined.

(** C8, as stated, fails: a request that omits ["text_to_process"] is
    answered with an error, and the function is not called (nothing is
    constructed, the state is as before). *)
Lemma omitted_text_is_an_error :
  claimify_server.handle_call_tool
    (claimify_server.classes standins.world) "extract_claims"
    {[ "question" := "Why?" ]} claimify_server.initial_state
  = (claimify_server.initial_state,
     {| claimify_server.content :=
          [ {| claimify_server.type := "text";
               claimify_server.text :=
                 "Input validation error: 'text_to_process' is a required property" |} ];
        claimify_server.isError := true |}).
Proof. reflexivity. Qed.

Lemma call_tool_payload_witness :
  claimify_server.call_tool_in (claimify_server.classes standins.world)
    "extract_claims"
    {[ "text_to_process" := "Alpha is one. Gamma is three." ]}
    claimify_server.initial_state
  = ((claimify_server.extraction (claimify_server.classes standins.world)
        {[ "text_to_process" := "Alpha is one. Gamma is three." ]}
        claimify_server.initial_state).1,
     Ok [ {| claimify_server.type := "text";
             claimify_server.text :=
               json_dumps ["Alpha is one."; "Gamma is three."] |} ])
  /\ json_loads (json_dumps ["Alpha is one."; "Gamma is three."])
     = Some ["Alpha is one."; "Gamma is three."].
Proof.
  destruct (call_tool_payload (claimify_server.classes standins.world)
              {[ "text_to_process" := "Alpha is one. Gamma is three." ]}
              claimify_server.initial_state) as (_ & Hreturned & _).
  apply Hreturned. reflexivity.
Defined.


(** C1, as stated, fails: in a process where [LLMClient()] raises, the
    request is answered with an error message, which does not read as a JSON
    array and so is not a claim list; the result that carries it is not
    flagged as an error. *)
Lemma call_tool_error_is_no_claim_list :
  (claimify_server.call_tool standins.world_without_client "extract_claims"
     {[ "text_to_process" := "Alpha is one." ]}
     claimify_server.initial_state).2
  = Ok [ {| claimify_server.type := "text";
            claimify_server.text :=
              "Error during claim extraction: Unsupported LLM provider: gemini" |} ]
  /\ json_loads
       "Error during claim extraction: Unsupported LLM provider: gemini"
     = None
  /\ ~ claimify_server.claim_list_payload
        (claimify_server.call_tool standins.world_without_client
           "extract_claims" {[ "text_to_process" := "Alpha is one." ]}
           claimify_server.initial_state).2
  /\ (claimify_server.handle_call_tool
        (claimify_server.classes standins.world_without_client)
        "extract_claims" {[ "text_to_process" := "Alpha is one." ]}
        claimify_server.initial_state).2
     = {| claimify_server.content :=
            [ {| claimify_server.type := "text";
                 claimify_server.text :=
                   "Error during claim extraction: Unsupported LLM provider: gemini" |} ];
          claimify_server.isError := false |}.
Proof.
  split; [reflexivity|]. split; [reflexivity|]. split; [|reflexivity].
  intros (payload & claims & Heq & Hloads).
  injection Heq as <-. discriminate Hloads.
Qed.


(** ** Start-up *)
Section startup.
Import claimify_server.

Variable env : gmap string string.

(** The provider name [main] works with. *)
Let provider : string := lower (default "openai" (env !! "LLM_PROVIDER")).


Lemma main_openai_missing :
  provider = "openai" ->
  truthy (env !! "OPENAI_API_KEY") = false ->
  main env =
    ([GetEnv "LLM_PROVIDER"; GetEnv "OPENAI_API_KEY";
      PrintStderr "ERROR: OPENAI_API_KEY environment variable not set.";
      PrintStderr "Please create a .env file with your API key or set the environment variable.";
      SysExit 1], None).
Proof.
  unfold provider. intros Hp Hk.
  unfold main, getenv_or, not_set, getenv, mbind, proc_bind, mret, proc_ret.
  cbn. rewrite Hp. cbn. rewrite Hk. reflexivity.
Qed.

Lemma main_anthropic_missing :
  provider = "anthropic" ->
  truthy (env !! "ANTHROPIC_API_KEY") = false ->
  main env =
    ([GetEnv "LLM_PROVIDER"; GetEnv "ANTHROPIC_API_KEY";
      PrintStderr "ERROR: ANTHROPIC_API_KEY environment variable not set.";
      PrintStderr "Please create a .env file with your API key or set the environment variable.";
      SysExit 1], None).
Proof.
  unfold provider. intros Hp Hk.
  unfold main, getenv_or, not_set, getenv, mbind, proc_bind, mret, proc_ret.
  cbn. rewrite Hp. cbn. rewrite Hk. reflexivity.
Qed.

Lemma main_other_provider :
  provider <> "openai" ->
  provider <> "anthropic" ->
  main env =
    ([GetEnv "LLM_PROVIDER";
      PrintStderr "Starting Claimify MCP Server...";
      PrintStderr ("LLM Provider: " +:+ provider);
      GetEnv "LLM_MODEL";
      PrintStderr ("Model: " +:+ default "gpt-4o" (env !! "LLM_MODEL"));
      PrintStderr "Server is ready to accept connections via stdio.";
      ServeStdio], Some tt).
Proof.
  unfold provider. intros Ho Ha.
  apply String.eqb_neq in Ho, Ha.
  unfold main, getenv_or, not_set, getenv, mbind, proc_bind, mret, proc_ret.
  cbn. rewrite Ho. cbn. rewrite Ha. reflexivity.
Qed.

(** C4.  When the provider is [openai] or [anthropic] and the API key of that
    provider is not set in the environment (absent, or empty), [main] reads
    the provider and that key, prints the two lines of the error on the
    standard error, and ends in [sys.exit(1)]: the process exits with status
    1, [main] does not complete, and the server is never started, so no
    invocation is accepted. *)
Theorem main_exits_without_credential :
  (lower (default "openai" (env !! "LLM_PROVIDER")) = "openai"
   /\ truthy (env !! "OPENAI_API_KEY") = false)
  \/ (lower (default "openai" (env !! "LLM_PROVIDER")) = "anthropic"
      /\ truthy (env !! "ANTHROPIC_API_KEY") = false) ->
  (exists key,
     (main env).1
     = [GetEnv "LLM_PROVIDER"; GetEnv key;
        PrintStderr ("ERROR: " +:+ key +:+ " environment variable not set.");
        PrintStderr "Please create a .env file with your API key or set the environment variable.";
        SysExit 1])
  /\ (main env).2 = None
  /\ exit_status (main env).1 = 1
  /\ serves (main env).1 = false.
Proof.
  intros [[Hp Hk]|[Hp Hk]].
  - rewrite (main_openai_missing Hp Hk).
    split; [exists "OPENAI_API_KEY"; reflexivity|]. repeat split.
  - rewrite (main_anthropic_missing Hp Hk).
    split; [exists "ANTHROPIC_API_KEY"; reflexivity|]. repeat split.
Qed.

(** C10.  When the provider name lower-cases to neither [openai] nor
    [anthropic], [main] reads only [LLM_PROVIDER] and [LLM_MODEL] from the
    environment (no API key is looked at), does not exit, and starts the
    server. *)
Theorem main_unrecognized_provider_serves :
  lower (default "openai" (env !! "LLM_PROVIDER")) <> "openai" ->
  lower (default "openai" (env !! "LLM_PROVIDER")) <> "anthropic" ->
  (main env).2 = Some tt
  /\ env_reads (main env).1 = ["LLM_PROVIDER"; "LLM_MODEL"]
  /\ serves (main env).1 = true
  /\ exit_status (main env).1 = 0
  /\ last (main env).1 = Some ServeStdio.
Proof.
  intros Ho Ha. rewrite (main_other_provider Ho Ha). repeat split.
Qed.

End startup.

Lemma main_exits_without_credential_witness :
  (claimify_server.main {[ "LLM_PROVIDER" := "Anthropic" ]}).2 = None
  /\ claimify_server.exit_status
       (claimify_server.main {[ "LLM_PROVIDER" := "Anthropic" ]}).1 = 1
  /\ claimify_server.serves
       (claimify_server.main {[ "LLM_PROVIDER" := "Anthropic" ]}).1 = false.
Proof.
  apply (main_exits_without_credential {[ "LLM_PROVIDER" := "Anthropic" ]}).
  right. split; reflexivity.
Defined.

Lemma main_unrecognized_provider_serves_witness :
  (claimify_server.main {[ "LLM_PROVIDER" := "Gemini" ]}).2 = Some tt
  /\ claimify_server.env_reads
       (claimify_server.main {[ "LLM_PROVIDER" := "Gemini" ]}).1
     = ["LLM_PROVIDER"; "LLM_MODEL"]
  /\ claimify_server.serves
       (claimify_server.main {[ "LLM_PROVIDER" := "Gemini" ]}).1 = true
  /\ claimify_server.exit_status
       (claimify_server.main {[ "LLM_PROVIDER" := "Gemini" ]}).1 = 0
  /\ last (claimify_server.main {[ "LLM_PROVIDER" := "Gemini" ]}).1
     = Some claimify_server.ServeStdio.
Proof.
  apply (main_unrecognized_provider_serves {[ "LLM_PROVIDER" := "Gemini" ]});
    discriminate.
Defined.

(** * Further properties

    Properties of the rest of the code: the start-up and the handler of
    [claimify_server.py], the tests of [test_claimify.py], and the steps of
    [setup.py]. *)

(** ** Start-up, continued *)
Section startup_more.
Import claimify_server.

Variable env : gmap string string.

Lemma main_openai_key :
  lower (default "openai" (env !! "LLM_PROVIDER")) = "openai" ->
  truthy (env !! "OPENAI_API_KEY") = true ->
  main env =
    ([GetEnv "LLM_PROVIDER"; GetEnv "OPENAI_API_KEY";
      PrintStderr "Starting Claimify MCP Server...";
      PrintStderr "LLM Provider: openai";
      GetEnv "LLM_MODEL";
      PrintStderr ("Model: " +:+ default "gpt-4o" (env !! "LLM_MODEL"));
      PrintStderr "Server is ready to accept connections via stdio.";
      ServeStdio], Some tt).
Proof.
  intros Hp Hk.
  unfold main, getenv_or, not_set, getenv, mbind, proc_bind, mret, proc_ret.
  cbn. rewrite Hp. cbn. rewrite Hk. reflexivity.
Qed.

Lemma main_anthropic_key :
  lower (default "openai" (env !! "LLM_PROVIDER")) = "anthropic" ->
  truthy (env !! "ANTHROPIC_API_KEY") = true ->
  main env =
    ([GetEnv "LLM_PROVIDER"; GetEnv "ANTHROPIC_API_KEY";
      PrintStderr "Starting Claimify MCP Server...";
      PrintStderr "LLM Provider: anthropic";
      GetEnv "LLM_MODEL";
      PrintStderr ("Model: " +:+ default "gpt-4o" (env !! "LLM_MODEL"));
      PrintStderr "Server is ready to accept connections via stdio.";
      ServeStdio], Some tt).
Proof.
  intros Hp Hk.
  unfold main, getenv_or, not_set, getenv, mbind, proc_bind, mret, proc_ret.
  cbn. rewrite Hp. cbn. rewrite Hk. reflexivity.
Qed.

End startup_more.

Section startup_extras.
Import claimify_server.

Variable env : gmap string string.

(** X1.  With the provider [openai] or [anthropic] and a non-empty API key of
    that provider, [main] starts the server and ends with status 0; of the
    environment it reads the provider, that provider's key and the model,
    never the key of the other provider. *)
Theorem main_serves_with_credential :
  (lower (default "openai" (env !! "LLM_PROVIDER")) = "openai"
   /\ truthy (env !! "OPENAI_API_KEY") = true)
  \/ (lower (default "openai" (env !! "LLM_PROVIDER")) = "anthropic"
      /\ truthy (env !! "ANTHROPIC_API_KEY") = true) ->
  (exists key,
     env_reads (main env).1 = ["LLM_PROVIDER"; key; "LLM_MODEL"]
     /\ (lower (default "openai" (env !! "LLM_PROVIDER")) = "openai" ->
         key = "OPENAI_API_KEY")
     /\ (lower (default "openai" (env !! "LLM_PROVIDER")) = "anthropic" ->
         key = "ANTHROPIC_API_KEY"))
  /\ (main env).2 = Some tt
  /\ serves (main env).1 = true
  /\ exit_status (main env).1 = 0
  /\ last (main env).1 = Some ServeStdio.
Proof.
  intros [[Hp Hk]|[Hp Hk]].
  - rewrite (main_openai_key env Hp Hk), Hp.
    split; [exists "OPENAI_API_KEY"; repeat split; auto; discriminate|].
    repeat split.
  - rewrite (main_anthropic_key env Hp Hk), Hp.
    split; [exists "ANTHROPIC_API_KEY"; repeat split; auto; discriminate|].
    repeat split.
Qed.

(** X2.  What [main] does depends on four variables of the environment only:
    two environments that agree on [LLM_PROVIDER], [OPENAI_API_KEY],
    [ANTHROPIC_API_KEY] and [LLM_MODEL] give the same trace and the same
    end. *)
Theorem main_reads_four_variables (env' : gmap string string) :
  env !! "LLM_PROVIDER" = env' !! "LLM_PROVIDER" ->
  env !! "OPENAI_API_KEY" = env' !! "OPENAI_API_KEY" ->
  env !! "ANTHROPIC_API_KEY" = env' !! "ANTHROPIC_API_KEY" ->
  env !! "LLM_MODEL" = env' !! "LLM_MODEL" ->
  main env = main env'.
Proof.
  intros Hp Ho Ha Hm.
  assert (Hp' : lower (default "openai" (env' !! "LLM_PROVIDER"))
                = lower (default "openai" (env !! "LLM_PROVIDER")))
    by (rewrite Hp; reflexivity).
  destruct (String.eqb_spec
              (lower (default "openai" (env !! "LLM_PROVIDER"))) "openai")
    as [E|N].
  - assert (E' := E). rewrite <- Hp' in E'.
    destruct (truthy (env !! "OPENAI_API_KEY")) eqn:Hk;
      assert (Hk' := Hk); rewrite Ho in Hk'.
    + rewrite (main_openai_key env E Hk), (main_openai_key env' E' Hk'), Hm.
      reflexivity.
    + rewrite (main_openai_missing env E Hk),
        (main_openai_missing env' E' Hk').
      reflexivity.
  - assert (N' := N). rewrite <- Hp' in N'.
    destruct (String.eqb_spec
                (lower (default "openai" (env !! "LLM_PROVIDER")))
                "anthropic") as [E|Na].
    + assert (E' := E). rewrite <- Hp' in E'.
      destruct (truthy (env !! "ANTHROPIC_API_KEY")) eqn:Hk;
        assert (Hk' := Hk); rewrite Ha in Hk'.
      * rewrite (main_anthropic_key env E Hk),
          (main_anthropic_key env' E' Hk'), Hm.
        reflexivity.
      * rewrite (main_anthropic_missing env E Hk),
          (main_anthropic_missing env' E' Hk').
        reflexivity.
    + assert (Na' := Na). rewrite <- Hp' in Na'.
      rewrite (main_other_provider env N Na),
        (main_other_provider env' N' Na'), Hp', Hm.
      reflexivity.
Qed.

End startup_extras.

Lemma main_serves_with_credential_witness :
  claimify_server.env_reads
    (claimify_server.main
       {[ "LLM_PROVIDER" := "ANTHROPIC"; "ANTHROPIC_API_KEY" := "sk-ant" ]}).1
  = ["LLM_PROVIDER"; "ANTHROPIC_API_KEY"; "LLM_MODEL"]
  /\ claimify_server.serves
       (claimify_server.main
          {[ "LLM_PROVIDER" := "ANTHROPIC";
             "ANTHROPIC_API_KEY" := "sk-ant" ]}).1 = true.
Proof.
  pose proof (main_serves_with_credential
                {[ "LLM_PROVIDER" := "ANTHROPIC";
                   "ANTHROPIC_API_KEY" := "sk-ant" ]}
                (or_intror (conj eq_refl eq_refl))) as (_ & _ & Hs & _).
  split; [reflexivity|exact Hs].
Defined.

Lemma main_reads_four_variables_witness :
  claimify_server.main {[ "LLM_PROVIDER" := "gemini"; "HOME" := "/root" ]}
  = claimify_server.main {[ "LLM_PROVIDER" := "gemini" ]}.
Proof.
  apply (main_reads_four_variables
           {[ "LLM_PROVIDER" := "gemini"; "HOME" := "/root" ]}
           {[ "LLM_PROVIDER" := "gemini" ]}); reflexivity.
Defined.

Section startup_dichotomy.
Import claimify_server.

Variable env : gmap string string.

(** X22.  Whatever the environment, [main] ends in one of two ways: it starts
    the server as the last thing it does and ends with status 0, or it exits
    with status 1 without starting the server.  It exits exactly when the
    provider is [openai] or [anthropic] and that provider's key is absent or
    empty. *)
Theorem main_serves_or_exits :
  (((main env).2 = Some tt /\ serves (main env).1 = true
    /\ exit_status (main env).1 = 0
    /\ last (main env).1 = Some ServeStdio)
   \/ ((main env).2 = None /\ serves (main env).1 = false
       /\ exit_status (main env).1 = 1
       /\ last (main env).1 = Some (SysExit 1)))
  /\ serves (main env).1
     = negb ((String.eqb (lower (default "openai" (env !! "LLM_PROVIDER")))
                "openai"
              && negb (truthy (env !! "OPENAI_API_KEY")))
             || (String.eqb
                   (lower (default "openai" (env !! "LLM_PROVIDER")))
                   "anthropic"
                 && negb (truthy (env !! "ANTHROPIC_API_KEY")))).
Proof.
  destruct (String.eqb_spec
              (lower (default "openai" (env !! "LLM_PROVIDER"))) "openai")
    as [E|N].
  - destruct (truthy (env !! "OPENAI_API_KEY")) eqn:Hk.
    + rewrite (main_openai_key env E Hk), E. split; [left|]; repeat split.
    + rewrite (main_openai_missing env E Hk). split; [right|]; repeat split.
  - destruct (String.eqb_spec
                (lower (default "openai" (env !! "LLM_PROVIDER")))
                "anthropic") as [E|Na].
    + destruct (truthy (env !! "ANTHROPIC_API_KEY")) eqn:Hk.
      * rewrite (main_anthropic_key env E Hk).
        split; [left|]; repeat split.
      * rewrite (main_anthropic_missing env E Hk).
        split; [right|]; repeat split.
    + rewrite (main_other_provider env N Na). split; [left|]; repeat split.
Qed.

End startup_dichotomy.

(** ** The tool handler, continued *)
Section handler_more.
Import claimify_server.

Variable W : World.

(** What [json.dumps] wrote determines the list. *)
Lemma json_dumps_inj (a b : list string) :
  json_dumps a = json_dumps b -> a = b.
Proof.
  intros H. apply (f_equal json_loads) in H.
  rewrite !json_loads_dumps in H. congruence.
Qed.

(** X11.  The handler looks at no argument but ["text_to_process"] and
    ["question"]: adding, changing or removing any other key changes neither
    the response nor the state the invocation leaves. *)
Theorem call_tool_ignores_other_arguments (name key value : string)
    (arguments : gmap string string) (st : server_state) :
  key <> "text_to_process" -> key <> "question" ->
  call_tool W name (<[key := value]> arguments) st
  = call_tool W name arguments st
  /\ call_tool W name (delete key arguments) st
     = call_tool W name arguments st.
Proof.
  intros Ht Hq. split; apply call_tool_gets; unfold get.
  - rewrite lookup_insert_ne by congruence. reflexivity.
  - rewrite lookup_insert_ne by congruence. reflexivity.
  - rewrite lookup_delete_ne by congruence. reflexivity.
  - rewrite lookup_delete_ne by congruence. reflexivity.
Qed.

(** X12.  The handler serves exactly the tools [list_tools] announces: for a
    listed name it returns one text item and does not raise; for any other
    name it raises [ValueError] with the message ["Unknown tool: " + name],
    constructs nothing and sends no request. *)
Theorem listed_tools_are_served (tool : string)
    (arguments : gmap string string) (st : server_state) :
  (tool ∈ map name list_tools ->
   exists item, (call_tool W tool arguments st).2 = Ok [item]
                /\ type item = "text")
  /\ (tool ∉ map name list_tools ->
      call_tool W tool arguments st
      = (st, Raise (Exception "ValueError" ("Unknown tool: " +:+ tool)))).
Proof.
  split.
  - intros Hin. cbn in Hin. apply list_elem_of_singleton in Hin as ->.
    destruct (LLMClient_init W) as [c|e] eqn:Hc.
    + rewrite (call_tool_constructed _ _ _ _ Hc). eexists. split; reflexivity.
    + rewrite (call_tool_not_constructed _ _ _ _ Hc).
      eexists. split; reflexivity.
  - intros Hnot. apply call_tool_unknown. apply String.eqb_neq.
    intros ->. apply Hnot. cbn. apply list_elem_of_singleton. reflexivity.
Qed.

(** X13.  A question that is present in the arguments is used as given, also
    when it is the empty string: the fallback applies to an absent key only.
    The pipeline instance holds the given question and the run is made with
    it. *)
Theorem given_question_is_used (question : string)
    (arguments : gmap string string) (st : server_state)
    (c : llm_client.LLMClient) :
  arguments !! "question" = Some question ->
  LLMClient_init W = Ok c ->
  (exists p,
     heap (call_tool W "extract_claims" arguments st).1
       !! S (length (heap st)) = Some (ClaimifyPipelineObj p)
     /\ run_question p = question)
  /\ requests (call_tool W "extract_claims" arguments st).1
     = (requests st
        ++ (pipeline.run (config W) c question
              (get arguments "text_to_process" EmptyString)).1)%list
  /\ (call_tool W "extract_claims" arguments st).2
     = Ok [ {| type := "text";
               text := json_dumps
                         (pipeline.run (config W) c question
                            (get arguments "text_to_process" EmptyString)).2 |} ].
Proof.
  intros Hq Hc. rewrite (call_tool_constructed _ _ _ _ Hc).
  assert (Hget : get arguments "question" NO_QUESTION = question)
    by (unfold get; rewrite Hq; reflexivity).
  rewrite Hget. cbn [fst snd heap requests]. split; [|split; reflexivity].
  eexists. split.
  - rewrite lookup_app_r by lia.
    replace (S (length (heap st)) - length (heap st))%nat with 1%nat by lia.
    reflexivity.
  - reflexivity.
Qed.

(** X14.  The text of a response determines the claims: when the client can
    be constructed, two invocations that answer with the same payload ran to
    the same list of claims. *)
Theorem equal_payloads_equal_claims (a1 a2 : gmap string string)
    (st1 st2 : server_state) (c : llm_client.LLMClient) :
  LLMClient_init W = Ok c ->
  (call_tool W "extract_claims" a1 st1).2
  = (call_tool W "extract_claims" a2 st2).2 ->
  (pipeline.run (config W) c (get a1 "question" NO_QUESTION)
     (get a1 "text_to_process" EmptyString)).2
  = (pipeline.run (config W) c (get a2 "question" NO_QUESTION)
       (get a2 "text_to_process" EmptyString)).2.
Proof.
  intros Hc. rewrite !(call_tool_constructed _ _ _ _ Hc). cbn [snd].
  intros H. injection H as H. apply json_dumps_inj, H.
Qed.

End handler_more.

Lemma call_tool_ignores_other_arguments_witness :
  claimify_server.call_tool standins.world "extract_claims"
    (<["language" := "en"]> {[ "text_to_process" := "Alpha is one." ]})
    claimify_server.initial_state
  = claimify_server.call_tool standins.world "extract_claims"
      {[ "text_to_process" := "Alpha is one." ]}
      claimify_server.initial_state.
Proof.
  assert (H1 : "language" <> "text_to_process") by discriminate.
  assert (H2 : "language" <> "question") by discriminate.
  destruct (call_tool_ignores_other_arguments standins.world "extract_claims"
              "language" "en" {[ "text_to_process" := "Alpha is one." ]}
              claimify_server.initial_state H1 H2) as [H _].
  exact H.
Defined.

Lemma given_question_is_used_witness :
  (claimify_server.call_tool standins.world "extract_claims"
     {[ "text_to_process" := "Alpha is one."; "question" := EmptyString ]}
     claimify_server.initial_state).2
  = Ok [ {| claimify_server.type := "text";
            claimify_server.text :=
              json_dumps
                (pipeline.run standins.config standins.client EmptyString
                   (claimify_server.get
                      {[ "text_to_process" := "Alpha is one.";
                         "question" := EmptyString ]}
                      "text_to_process" EmptyString)).2 |} ].
Proof.
  assert (Hq : ({[ "text_to_process" := "Alpha is one.";
                   "question" := EmptyString ]} : gmap string string)
                !! "question" = Some EmptyString) by reflexivity.
  destruct (given_question_is_used standins.world EmptyString
              {[ "text_to_process" := "Alpha is one.";
                 "question" := EmptyString ]}
              claimify_server.initial_state standins.client
              Hq eq_refl) as (_ & _ & H).
  exact H.
Defined.

Lemma equal_payloads_equal_claims_witness :
  (pipeline.run standins.config standins.client
     (claimify_server.get
        {[ "text_to_process" := "Alpha is one."; "question" := "Why?" ]}
        "question" claimify_server.NO_QUESTION)
     (claimify_server.get
        {[ "text_to_process" := "Alpha is one."; "question" := "Why?" ]}
        "text_to_process" EmptyString)).2
  = (pipeline.run standins.config standins.client
       (claimify_server.get {[ "text_to_process" := "Alpha is one." ]}
          "question" claimify_server.NO_QUESTION)
       (claimify_server.get {[ "text_to_process" := "Alpha is one." ]}
          "text_to_process" EmptyString)).2.
Proof.
  apply (equal_payloads_equal_claims standins.world
           {[ "text_to_process" := "Alpha is one."; "question" := "Why?" ]}
           {[ "text_to_process" := "Alpha is one." ]}
           claimify_server.initial_state claimify_server.initial_state
           standins.client eq_refl).
  vm_compute. reflexivity.
Defined.

Section unlisted_tools.
Import claimify_server.

Variable K : Classes.

(** X23.  A request for a tool that [list_tools] does not announce is
    answered with an error result whose text is ["Unknown tool: " + name]:
    the [ValueError] that [call_tool] raises does not leave the registered
    handler, the arguments are not validated, nothing is constructed and the
    state is as before. *)
Theorem unlisted_tool_is_an_error_result (tool_name : string)
    (arguments : gmap string string) (st : server_state) :
  tool_name ∉ map name list_tools ->
  call_tool_in K tool_name arguments st
  = (st, Raise (Exception "ValueError" ("Unknown tool: " +:+ tool_name)))
  /\ handle_call_tool K tool_name arguments st
     = (st,
        {| content :=
             [ {| type := "text"; text := "Unknown tool: " +:+ tool_name |} ];
           isError := true |}).
Proof.
  intros Hnot.
  assert (Hn : String.eqb tool_name "extract_claims" = false).
  { apply String.eqb_neq. intros ->. apply Hnot. cbn.
    apply list_elem_of_singleton. reflexivity. }
  split; [|apply handle_unlisted, Hn].
  unfold call_tool_in. rewrite Hn. reflexivity.
Qed.

End unlisted_tools.

Lemma unlisted_tool_is_an_error_result_witness :
  claimify_server.handle_call_tool
    (claimify_server.classes standins.world) "extract" ∅
    claimify_server.initial_state
  = (claimify_server.initial_state,
     {| claimify_server.content :=
          [ {| claimify_server.type := "text";
               claimify_server.text := "Unknown tool: extract" |} ];
        claimify_server.isError := true |}).
Proof.
  assert (Hnot : "extract" ∉ map claimify_server.name claimify_server.list_tools).
  { cbn. intros Hin. apply list_elem_of_singleton in Hin. discriminate Hin. }
  destruct (unlisted_tool_is_an_error_result
              (claimify_server.classes standins.world) "extract" ∅
              claimify_server.initial_state Hnot) as [_ H].
  exact H.
Defined.

(** ** The test script *)
Section test_suite.
Import test_claimify.

Lemma run_tests_value (tests : list (string * out bool)) :
  (run_tests tests).2
  = Ok (map (fun nt => (nt.1, Some (recorded nt.2))) tests).
Proof.
  induction tests as [|[name [t r]] rest IH]; [reflexivity|].
  cbn [run_tests]. unfold mbind, out_bind, try_except, print, mret, out_ret.
  destruct (run_tests rest) as [t' r']. cbn in IH. subst r'.
  destruct r as [b|e]; reflexivity.
Qed.

Lemma summarize_value (results : list (string * option bool))
    (passed failed skipped : nat) :
  (summarize results (passed, failed, skipped)).2
  = Ok ((passed + count_passed results)%nat,
        (failed + count_failed results)%nat,
        (skipped + count_skipped results)%nat).
Proof.
  revert passed failed skipped.
  induction results as [|[name r] rest IH]; intros passed failed skipped.
  - cbn. rewrite !Nat.add_0_r. reflexivity.
  - cbn [summarize]. unfold mbind, out_bind, print.
    unfold count_passed, count_failed, count_skipped in *.
    destruct r as [[|]|]; cbn [fst snd].
    all: match goal with
         | |- context [summarize ?l ?c] =>
             specialize (IH (fst (fst c)) (snd (fst c)) (snd c));
             cbn [fst snd] in IH;
             destruct (summarize l c) as [t' r']; cbn [snd] in *;
             rewrite IH
         end.
    all: rewrite !filter_cons; cbn [snd].
    all: repeat case_decide; try congruence; cbn [length].
    all: rewrite ?Nat.add_succ_r; reflexivity.
Qed.

End test_suite.

Section test_main.
Import test_claimify.

Lemma main_with_summary (tests : list (string * out bool)) (api_test : out bool) :
  (main_with tests api_test).2
  = Ok (Nat.eqb (count_failed (results_of tests api_test)) 0)
  /\ summary_line (count_passed (results_of tests api_test))
       (count_failed (results_of tests api_test))
       (count_skipped (results_of tests api_test))
     ∈ (main_with tests api_test).1.
Proof.
  unfold main_with, results_of.
  pose proof (run_tests_value tests) as Hrt.
  destruct (run_tests tests) as [t1 r1]. cbn [snd] in Hrt. subst r1.
  set (recs := map (fun nt => (nt.1, Some (recorded nt.2))) tests).
  destruct api_test as [ta [b|e]]; cbn [snd].
  - unfold mbind, out_bind, try_except, print, mret, out_ret. cbn [fst snd].
    pose proof (summarize_value (recs ++ [("API Connection", Some b)]) 0 0 0)
      as Hs.
    destruct (summarize _ _) as [t3 r3]. cbn [snd] in Hs. subst r3.
    cbn [Nat.add]. unfold summary_line.
    destruct (Nat.eqb _ 0); cbn [fst snd]; split; try reflexivity; set_solver.
  - unfold mbind, out_bind, try_except, print, mret, out_ret. cbn [fst snd].
    pose proof (summarize_value (recs ++ [("API Connection", None)]) 0 0 0)
      as Hs.
    destruct (summarize _ _) as [t3 r3]. cbn [snd] in Hs. subst r3.
    cbn [Nat.add]. unfold summary_line.
    destruct (Nat.eqb _ 0); cbn [fst snd]; split; try reflexivity; set_solver.
Qed.

End test_main.

Section tests.
Import test_claimify.

Variable P : Process.

Ltac run_out :=
  unfold try_except, new_client, of_result, raise, print,
    mbind, out_bind, mret, out_ret; cbn [fst snd].

Lemma test_api_connection_value :
  (test_api_connection P).2
  = Ok match llm_client_module P with
       | Ok (Ok client) =>
           match llm_client.make_request client
                   "You are a helpful assistant."
                   "Say 'test successful' if you can read this." with
           | Ok response => negb (String.eqb response EmptyString)
           | Raise _ => false
           end
       | _ => false
       end.
Proof.
  unfold test_api_connection. run_out.
  destruct (llm_client_module P) as [[client|e]|e]; cbn; try reflexivity.
  destruct (llm_client.make_request _ _ _) as [response|e]; cbn;
    [|reflexivity].
  destruct (String.eqb response EmptyString); cbn; [reflexivity|].
  destruct (contains _ _); reflexivity.
Qed.

Lemma test_llm_client_value :
  (test_llm_client P).2
  = Ok match llm_client_module P with
       | Ok (Ok _) => true
       | _ => false
       end.
Proof.
  unfold test_llm_client. run_out.
  destruct (llm_client_module P) as [[client|e]|e]; reflexivity.
Qed.

Lemma test_prompts_value :
  (test_prompts P).2
  = Ok match prompts_module P with
       | Ok (selection, disambiguation, decomposition) =>
           negb (String.prefix "#" selection)
           && negb (String.prefix "#" disambiguation)
           && negb (String.prefix "#" decomposition)
       | Raise _ => false
       end.
Proof.
  unfold test_prompts, prompt_or_fail. run_out.
  destruct (prompts_module P) as [[[s d] c]|e]; cbn; [|reflexivity].
  destruct (String.prefix "#" s); cbn; [reflexivity|].
  destruct (String.prefix "#" d); cbn; [reflexivity|].
  destruct (String.prefix "#" c); reflexivity.
Qed.

Lemma test_nltk_data_value :
  (test_nltk_data P).2
  = Ok match nltk_module P with
       | Ok _ =>
           match nltk_data_find P "tokenizers/punkt_tab" with
           | Ok _ => true
           | Raise e =>
               is_LookupError e
               && match nltk_data_find P "tokenizers/punkt" with
                  | Ok _ => true
                  | Raise _ => false
                  end
           end
       | Raise _ => false
       end.
Proof.
  unfold test_nltk_data. run_out.
  destruct (nltk_module P) as [[]|e]; cbn; [|reflexivity].
  destruct (nltk_data_find P "tokenizers/punkt_tab") as [[]|e]; cbn;
    [reflexivity|].
  destruct (is_LookupError e); cbn; [|reflexivity].
  destruct (nltk_data_find P "tokenizers/punkt") as [[]|e']; cbn;
    [reflexivity|].
  destruct (is_LookupError e'); reflexivity.
Qed.

Lemma test_pipeline_basic_value :
  (test_pipeline_basic_out P).2
  = Ok match pipeline_module P with
       | Ok cfg => test_pipeline_basic cfg
       | Raise _ => false
       end.
Proof.
  unfold test_pipeline_basic_out, test_pipeline_basic. run_out.
  destruct (pipeline_module P) as [cfg|e]; cbn; [|reflexivity].
  destruct (Nat.eqb (length _) 3); cbn; [|reflexivity].
  destruct (pipeline.create_context_for_sentence _ 1 1 1) as [context|e];
    cbn; [|reflexivity].
  destruct (Nat.eqb (length (split_lines context)) 3); reflexivity.
Qed.

Lemma test_environment_value :
  (test_environment P).2
  = Ok (let provider :=
          lower (default "openai" (environ P !! "LLM_PROVIDER")) in
        if String.eqb provider "openai" then
          negb (key_unusable (environ P !! "OPENAI_API_KEY")
                  "your-openai-api-key-here")
        else if String.eqb provider "anthropic" then
          negb (key_unusable (environ P !! "ANTHROPIC_API_KEY")
                  "your-anthropic-api-key-here")
        else false).
Proof.
  unfold test_environment. run_out.
  destruct (String.eqb _ "openai").
  - destruct (key_unusable _ _); reflexivity.
  - destruct (String.eqb _ "anthropic"); [|reflexivity].
    destruct (key_unusable _ _); reflexivity.
Qed.

Lemma test_imports_value :
  (test_imports P).2
  = match nltk_module P with
    | Raise e => if is_ImportError e then Ok false else Raise e
    | Ok _ =>
        match llm_client_module P with
        | Raise e => if is_ImportError e then Ok false else Raise e
        | Ok _ =>
            match pipeline_module P with
            | Raise e => if is_ImportError e then Ok false else Raise e
            | Ok _ =>
                match prompts_module P with
                | Raise e => if is_ImportError e then Ok false else Raise e
                | Ok _ => Ok true
                end
            end
        end
    end.
Proof.
  unfold test_imports, import_or_fail. run_out.
  destruct (nltk_module P) as [?|e]; cbn;
    [|destruct (is_ImportError e); reflexivity].
  destruct (llm_client_module P) as [?|e]; cbn;
    [|destruct (is_ImportError e); reflexivity].
  destruct (pipeline_module P) as [?|e]; cbn;
    [|destruct (is_ImportError e); reflexivity].
  destruct (prompts_module P) as [?|e]; cbn;
    [|destruct (is_ImportError e); reflexivity].
  reflexivity.
Qed.

End tests.

Section environment_test.
Import test_claimify.

Variable P : Process.

Lemma key_usable_truthy (api_key : option string) (placeholder : string) :
  key_unusable api_key placeholder = false -> truthy api_key = true.
Proof.
  unfold key_unusable. intros H. apply orb_false_iff in H as [H _].
  apply negb_false_iff in H. exact H.
Qed.

(** X3.  When [test_environment] returns [True], the server started in the
    same environment passes its own start-up check: [main] does not exit and
    starts the server. *)
Theorem environment_test_implies_startup :
  (test_environment P).2 = Ok true ->
  (claimify_server.main (environ P)).2 = Some tt
  /\ claimify_server.serves (claimify_server.main (environ P)).1 = true
  /\ claimify_server.exit_status (claimify_server.main (environ P)).1 = 0.
Proof.
  rewrite test_environment_value. cbn zeta. intros H.
  destruct (String.eqb_spec
              (lower (default "openai" (environ P !! "LLM_PROVIDER")))
              "openai") as [E|N].
  - injection H as H. apply negb_true_iff, key_usable_truthy in H.
    rewrite (main_openai_key _ E H). repeat split.
  - destruct (String.eqb_spec
                (lower (default "openai" (environ P !! "LLM_PROVIDER")))
                "anthropic") as [E|Na]; [|discriminate H].
    injection H as H. apply negb_true_iff, key_usable_truthy in H.
    rewrite (main_anthropic_key _ E H). repeat split.
Qed.


End environment_test.

Lemma environment_test_implies_startup_witness :
  (test_claimify.test_environment standins.process).2 = Ok true
  /\ claimify_server.serves
       (claimify_server.main (test_claimify.environ standins.process)).1
     = true.
Proof.
  split; [reflexivity|].
  apply (environment_test_implies_startup standins.process). reflexivity.
Defined.


Section suite.
Import test_claimify.

Variable P : Process.





Lemma test_api_connection_recorded :
  (test_api_connection P).2 = Ok (recorded (test_api_connection P)).
Proof. unfold recorded. rewrite test_api_connection_value. reflexivity. Qed.

Lemma results_of_main :
  results_of (tests P) (test_api_connection P)
  = [("Imports", Some (recorded (test_imports P)));
     ("Environment", Some (recorded (test_environment P)));
     ("NLTK Data", Some (recorded (test_nltk_data P)));
     ("Prompts", Some (recorded (test_prompts P)));
     ("LLM Client", Some (recorded (test_llm_client P)));
     ("Pipeline Basic", Some (recorded (test_pipeline_basic_out P)));
     ("API Connection", Some (recorded (test_api_connection P)))].
Proof.
  unfold results_of, tests. rewrite test_api_connection_recorded. reflexivity.
Qed.



End suite.

(** ** The set-up script *)
Section text_mode.

Lemma universal_newlines_no_cr (s : string) :
  no_carriage_return s = true -> universal_newlines s = s.
Proof.
  induction s as [|c rest IH]; cbn; [reflexivity|].
  destruct (Ascii.eqb c CR); cbn; [discriminate|].
  intros Hr. rewrite (IH Hr). reflexivity.
Qed.

(** What was read in text mode holds no carriage return. *)
Lemma universal_newlines_clean (n : nat) (s : string) :
  (String.length s <= n)%nat ->
  no_carriage_return (universal_newlines s) = true.
Proof.
  revert s. induction n as [|n IH]; intros s Hlen.
  - destruct s; [reflexivity|cbn in Hlen; lia].
  - destruct s as [|c rest]; [reflexivity|]. cbn in Hlen.
    cbn [universal_newlines].
    destruct (Ascii.eqb c CR) eqn:Hc.
    + destruct rest as [|c' rest']; [reflexivity|]. cbn in Hlen.
      destruct (Ascii.eqb c' LF); cbn [no_carriage_return];
        (rewrite IH by (cbn; lia)); reflexivity.
    + cbn [no_carriage_return]. rewrite Hc, IH by lia. reflexivity.
Qed.

Lemma universal_newlines_fixed (s : string) :
  universal_newlines s = s <-> no_carriage_return s = true.
Proof.
  split; [|apply universal_newlines_no_cr].
  intros Heq. rewrite <- Heq. apply (universal_newlines_clean (String.length s)).
  lia.
Qed.

End text_mode.

Section setup_steps.
Import setup.

Variable H : Host.
Variable fs : gmap string string.

Lemma print_each_run (lines : list string) :
  print_each lines fs = (map Print lines, fs, Return tt).
Proof.
  induction lines as [|l ls IH]; [reflexivity|].
  cbn [print_each]. unfold mbind, io_bind, print at 1. rewrite IH. reflexivity.
Qed.

Lemma create_env_file_run :
  create_env_file H fs
  = match fs !! ".env" with
    | Some _ => ([Print "✓ .env file already exists"], fs, Return tt)
    | None =>
        match file_text H fs "env.example" with
        | Some (Ok template) =>
            ([Print "✓ Created .env file from template";
              Print "  Please edit .env and add your API keys"],
             <[".env" := encode H template]> fs, Return tt)
        | Some (Raise e) => ([], <[".env" := EmptyString]> fs, Raised e)
        | None =>
            ([Print "✓ Created .env file";
              Print "  Please edit .env and add your API keys"],
             <[".env" := encode H env_content]> fs, Return tt)
        end
    end.
Proof.
  unfold create_env_file, file_text, path_exists, open_read, open_write,
    read, write, print, mbind, io_bind.
  destruct (fs !! ".env") as [kept|]; [reflexivity|].
  destruct (fs !! "env.example") as [bytes|] eqn:He; cbn.
  - rewrite He. cbn. rewrite lookup_insert_ne by discriminate. rewrite He.
    destruct (decode H bytes) as [text|e]; cbn; [|reflexivity].
    rewrite insert_insert_eq. reflexivity.
  - rewrite insert_insert_eq. reflexivity.
Qed.

Lemma check_python_version_run :
  check_python_version H fs
  = if too_old H then
      ([Print "ERROR: Python 3.10 or newer is required.";
        Print ("Current version: " +:+ sys_version H)], fs, Exit 1)
    else
      match py_split (sys_version H) with
      | w :: _ =>
          ([Print ("✓ Python version " +:+ w +:+ " is compatible")], fs,
           Return tt)
      | [] => ([], fs, Raised (Exception "IndexError" "list index out of range"))
      end.
Proof.
  unfold check_python_version, print, sys_exit, raise, mbind, io_bind,
    mret, io_ret.
  destruct (too_old H); [reflexivity|].
  destruct (py_split (sys_version H)); reflexivity.
Qed.

Lemma install_dependencies_run :
  install_dependencies H fs
  = match pip_install H with
    | Ok _ =>
        ([Print "Installing dependencies..."; PipInstall;
          Print "✓ Dependencies installed successfully"], fs, Return tt)
    | Raise e =>
        if String.eqb (exn_class e) "CalledProcessError" then
          ([Print "Installing dependencies..."; PipInstall;
            Print "ERROR: Failed to install dependencies"], fs, Exit 1)
        else ([Print "Installing dependencies..."; PipInstall], fs, Raised e)
    end.
Proof.
  unfold install_dependencies, try_except, of_result, print, sys_exit, raise,
    mbind, io_bind.
  destruct (pip_install H) as [[]|e]; [reflexivity|]. cbn.
  destruct (String.eqb (exn_class e) "CalledProcessError"); reflexivity.
Qed.

Lemma download_nltk_data_run :
  exists trace,
    download_nltk_data H fs = (trace, fs, Return tt)
    /\ downloads trace
       = match import_nltk H with
         | Raise _ => []
         | Ok _ =>
             match nltk_download H "punkt_tab" with
             | Ok _ => ["punkt_tab"]
             | Raise _ => ["punkt_tab"; "punkt"]
             end
         end
    /\ ran_pip trace = false.
Proof.
  unfold download_nltk_data, try_except, of_result, print, mbind, io_bind.
  destruct (import_nltk H) as [[]|e]; cbn.
  - destruct (nltk_download H "punkt_tab") as [[]|e1]; cbn.
    + eexists. repeat split.
    + destruct (nltk_download H "punkt") as [[]|e2]; cbn;
        eexists; repeat split.
  - eexists. repeat split.
Qed.

Lemma needs_populating_run (prompt_file : string) :
  needs_populating H prompt_file fs
  = ([], fs,
     match verdict H fs prompt_file with
     | Ok missing => Return missing
     | Raise e => Raised e
     end).
Proof.
  unfold needs_populating, verdict, file_text, path_exists, open_read, read,
    mbind, io_bind.
  destruct (fs !! prompt_path prompt_file) as [bytes|] eqn:Hf; cbn.
  - rewrite ?Hf. cbn. rewrite ?Hf.
    destruct (decode H bytes) as [text|e]; reflexivity.
  - reflexivity.
Qed.

Lemma missing_prompts_run (files : list string) :
  missing_prompts H files fs
  = ([], fs,
     match reports H fs files with
     | Ok found => Return found
     | Raise e => Raised e
     end).
Proof.
  induction files as [|f rest IH]; [reflexivity|].
  cbn [missing_prompts reports]. unfold mbind, io_bind.
  rewrite needs_populating_run.
  destruct (verdict H fs f) as [missing|e]; [|reflexivity].
  rewrite IH. destruct (reports H fs rest) as [found|e]; reflexivity.
Qed.

Lemma check_prompt_files_run :
  check_prompt_files H fs
  = match reports H fs prompt_files with
    | Raise e => ([], fs, Raised e)
    | Ok [] =>
        ([Print "✓ All prompt files appear to be populated"], fs, Return tt)
    | Ok missing =>
        ((Print "⚠ Prompt files need to be populated:"
          :: map (fun f => Print ("  - prompts/" +:+ f)) missing
          ++ [Print (ch LF +:+ "Please copy the exact prompt texts from the Claimify paper:");
              Print "  - Selection System Prompt (Appendix N.1.1) → prompts/selection_prompt.txt";
              Print "  - Disambiguation System Prompt (Appendix N.1.2) → prompts/disambiguation_prompt.txt";
              Print "  - Decomposition System Prompt (Appendix N.1.3) → prompts/decomposition_prompt.txt"])%list,
         fs, Return tt)
    end.
Proof.
  unfold check_prompt_files, mbind, io_bind at 1.
  rewrite missing_prompts_run.
  destruct (reports H fs prompt_files) as [[|m ms]|e]; [reflexivity| |reflexivity].
  unfold mbind, io_bind, print at 1. rewrite print_each_run.
  cbn. rewrite map_map. reflexivity.
Qed.

(** The verdict on a file, in words. *)
Lemma verdict_populated (f : string) :
  verdict H fs f = Ok false <-> populated H fs f.
Proof.
  unfold verdict, populated, placeholder_content.
  destruct (file_text H fs (prompt_path f)) as [[text|e]|].
  - split.
    + intros Hv. injection Hv as Hv. apply orb_false_iff in Hv as [Hp Hl].
      apply Nat.ltb_ge in Hl. eauto.
    + intros (text' & Heq & Hp & Hl). injection Heq as <-.
      f_equal. apply orb_false_iff. split; [exact Hp|apply Nat.ltb_ge, Hl].
  - split; [discriminate|]. intros (text & Heq & _). discriminate Heq.
  - split; [discriminate|]. intros (text & Heq & _). discriminate Heq.
Qed.

Lemma verdict_readable (f : string) :
  readable H fs f <-> exists missing, verdict H fs f = Ok missing.
Proof.
  unfold verdict, readable.
  destruct (file_text H fs (prompt_path f)) as [[text|e]|].
  - split; [eauto|]. intros _ e He. discriminate He.
  - split.
    + intros Hr. exfalso. apply (Hr e). reflexivity.
    + intros [missing Hm]. discriminate Hm.
  - split; [eauto|]. intros _ e He. discriminate He.
Qed.

Lemma verdict_raises (f : string) (e : exn) :
  verdict H fs f = Raise e <-> file_text H fs (prompt_path f) = Some (Raise e).
Proof.
  unfold verdict.
  destruct (file_text H fs (prompt_path f)) as [[text|e']|].
  - split; discriminate.
  - split; intros Heq; injection Heq as <-; reflexivity.
  - split; discriminate.
Qed.

(** When every file that is there can be read, the loop ends with the files
    that are not populated. *)
Lemma reports_readable (files : list string) :
  Forall (readable H fs) files ->
  exists found,
    reports H fs files = Ok found
    /\ (forall f, f ∈ found <-> f ∈ files /\ ~ populated H fs f)
    /\ (found = [] <-> Forall (populated H fs) files).
Proof.
  induction 1 as [|f rest Hf _ (found & Hr & Hmem & Hnil)]; cbn [reports].
  - exists []. split; [reflexivity|]. split.
    + intros f. rewrite !elem_of_nil. tauto.
    + split; [constructor|reflexivity].
  - apply verdict_readable in Hf as [missing Hv]. rewrite Hv, Hr.
    destruct missing.
    + exists (f :: found). split; [reflexivity|].
      assert (Hnot : ~ populated H fs f).
      { rewrite <- verdict_populated. congruence. }
      split.
      * intros g. rewrite !elem_of_cons, Hmem. split.
        -- intros [->|[Hin Hn]]; auto.
        -- intros [[->|Hin] Hn]; auto.
      * split; [discriminate|]. intros Hall. inversion Hall; tauto.
    + exists found. split; [reflexivity|].
      apply verdict_populated in Hv.
      split.
      * intros g. rewrite elem_of_cons, Hmem. split; [tauto|].
        intros [[->|Hin] Hn]; tauto.
      * rewrite Hnil. split; [intros Hall; constructor; assumption|].
        intros Hall. inversion Hall; assumption.
Qed.

(** The loop raises exactly the exception of the first file that cannot be
    read. *)
Lemma reports_raises (files : list string) (e : exn) :
  reports H fs files = Raise e <->
  exists before f after,
    files = (before ++ f :: after)%list
    /\ Forall (readable H fs) before
    /\ file_text H fs (prompt_path f) = Some (Raise e).
Proof.
  induction files as [|g rest IH]; cbn [reports].
  - split; [discriminate|].
    intros (before & f & after & Heq & _). destruct before; discriminate Heq.
  - destruct (verdict H fs g) as [missing|e'] eqn:Hv.
    + assert (Hg : readable H fs g) by (apply verdict_readable; eauto).
      destruct (reports H fs rest) as [found|e''].
      * split; [destruct missing; discriminate|].
        intros (before & f & after & Heq & Hall & Hf).
        destruct before as [|b before]; cbn in Heq; injection Heq as -> ->.
        -- apply verdict_raises in Hf. congruence.
        -- inversion Hall; subst.
           assert (Hr : Raise (A := list string) e = Raise e) by reflexivity.
           enough (Ok found = Raise e) by discriminate.
           apply IH. eauto 10.
      * split.
        -- intros Heq. injection Heq as ->.
           destruct IH as [(before & f & after & -> & Hall & Hf) _];
             [reflexivity|].
           exists (g :: before), f, after. split; [reflexivity|].
           split; [constructor; assumption|exact Hf].
        -- intros (before & f & after & Heq & Hall & Hf).
           destruct before as [|b before]; cbn in Heq; injection Heq as -> ->.
           ++ apply verdict_raises in Hf. congruence.
           ++ inversion Hall; subst. apply IH. eauto 10.
    + split.
      * intros Heq. injection Heq as ->. apply verdict_raises in Hv.
        exists [], g, rest. split; [reflexivity|]. split; [constructor|exact Hv].
      * intros (before & f & after & Heq & Hall & Hf).
        destruct before as [|b before]; cbn in Heq; injection Heq as -> ->.
        -- apply verdict_raises in Hf. congruence.
        -- inversion Hall as [|? ? Hb _]; subst.
           apply verdict_readable in Hb as [missing Hb]. congruence.
Qed.

(** The loop looks at the prompt files only. *)
Lemma reports_frame (fs' : gmap string string) (files : list string) :
  (forall f, fs' !! prompt_path f = fs !! prompt_path f) ->
  reports H fs' files = reports H fs files.
Proof.
  intros Hsame. induction files as [|f rest IH]; [reflexivity|].
  cbn [reports]. rewrite IH. unfold verdict, file_text. rewrite Hsame.
  reflexivity.
Qed.

Lemma check_prompt_files_no_exit (code : Z) :
  (check_prompt_files H fs).2 <> Exit code.
Proof.
  rewrite check_prompt_files_run.
  destruct (reports H fs prompt_files) as [[|m ms]|e]; discriminate.
Qed.

Lemma check_prompt_files_returns :
  Forall (readable H fs) prompt_files ->
  (check_prompt_files H fs).2 = Return tt.
Proof.
  intros Hall. rewrite check_prompt_files_run.
  destruct (reports_readable prompt_files Hall) as (found & -> & _).
  destruct found; reflexivity.
Qed.

Lemma prompt_path_not_env (f : string) : prompt_path f <> ".env".
Proof. unfold prompt_path. discriminate. Qed.

(** After [create_env_file], [.env] is there, whether it returned or not. *)
Lemma create_env_file_leaves_env :
  exists kept, (create_env_file H fs).1.2 !! ".env" = Some kept.
Proof.
  rewrite create_env_file_run.
  destruct (fs !! ".env") as [kept|] eqn:He.
  - exists kept. exact He.
  - destruct (file_text H fs "env.example") as [[template|e]|]; cbn;
      eexists; apply lookup_insert_eq.
Qed.

Lemma create_env_file_frame (path : string) :
  path <> ".env" -> (create_env_file H fs).1.2 !! path = fs !! path.
Proof.
  intros Hp. rewrite create_env_file_run.
  destruct (fs !! ".env") as [kept|]; [reflexivity|].
  destruct (file_text H fs "env.example") as [[template|e]|]; cbn;
    apply lookup_insert_ne; congruence.
Qed.

End setup_steps.

Section setup_main.
Import setup.

Variable H : Host.
Variable fs : gmap string string.



(** X24.  Where text is stored as it is and the template decodes to itself,
    the [.env] made from a template is the template with every ["\r\n"] and
    ["\r"] made a line feed: a copy of the template exactly when the
    template holds no carriage return. *)
Theorem env_file_copies_template (bytes : string) :
  fs !! ".env" = None ->
  fs !! "env.example" = Some bytes ->
  decode H bytes = Ok bytes ->
  (forall text, encode H text = text) ->
  (create_env_file H fs).1.2 !! ".env" = Some (universal_newlines bytes)
  /\ ((create_env_file H fs).1.2 !! ".env" = fs !! "env.example"
      <-> no_carriage_return bytes = true).
Proof.
  intros Henv Hex Hdec Henc.
  rewrite create_env_file_run, Henv. unfold file_text. rewrite Hex. cbn.
  rewrite Hdec, Henc. cbn. rewrite lookup_insert_eq.
  split; [reflexivity|].
  rewrite <- universal_newlines_fixed.
  split; [intros Heq; injection Heq as Heq; exact Heq|intros ->; reflexivity].
Qed.



End setup_main.

Section setup_script.
Import setup.

Variable H : Host.
Variable fs : gmap string string.

Ltac main_steps :=
  unfold main, mbind, io_bind, print; cbv beta iota;
  rewrite check_python_version_run.


(** The prompt files are checked on the files [create_env_file] left, which
    differ from those before in [.env] only. *)
Lemma check_after_create :
  check_prompt_files H (create_env_file H fs).1.2
  = ((check_prompt_files H fs).1.1, (create_env_file H fs).1.2,
     (check_prompt_files H fs).2).
Proof.
  rewrite !check_prompt_files_run.
  rewrite (reports_frame H fs (create_env_file H fs).1.2)
    by (intros f; apply create_env_file_frame, prompt_path_not_env).
  destruct (reports H fs prompt_files) as [[|m ms]|e]; reflexivity.
Qed.

(** What [main] does once the version check has passed and [pip] has
    succeeded. *)
Lemma main_after_pip (w : string) (ws : list string) :
  too_old H = false ->
  py_split (sys_version H) = w :: ws ->
  pip_install H = Ok tt ->
  (main H fs).1.2 = (create_env_file H fs).1.2
  /\ ran_pip (main H fs).1.1 = true
  /\ (main H fs).2
     = match (create_env_file H fs).2 with
       | Return _ => (check_prompt_files H fs).2
       | ended => ended
       end
  /\ ((main H fs).2 = Return tt ->
      last (main H fs).1.1
      = Some (Print (ch LF +:+ "For detailed instructions, see README.md"))).
Proof.
  intros Hold Hw Hpip.
  pose proof check_after_create as Hcheck.
  main_steps. rewrite Hold, Hw.
  cbv beta iota. rewrite install_dependencies_run, Hpip.
  cbv beta iota.
  destruct (download_nltk_data_run H fs) as (t3 & -> & _ & _).
  cbv beta iota.
  destruct (create_env_file H fs) as [[t4 fs4] [[]|code|e]];
    cbn [fst snd] in *.
  2,3: repeat split; intros Hr; discriminate Hr.
  rewrite Hcheck.
  destruct (check_prompt_files H fs) as [[t5 fs5] [[]|code|e]];
    cbn [fst snd].
  2,3: repeat split; intros Hr; discriminate Hr.
  repeat split. intros _. rewrite !app_assoc. apply last_snoc.
Qed.



End setup_script.



Lemma env_file_copies_template_witness :
  (setup.create_env_file standins.host
     {[ "env.example" := "K=V" +:+ ch CR +:+ ch LF ]}).1.2 !! ".env"
  = Some ("K=V" +:+ ch LF).
Proof.
  assert (Henv : ({[ "env.example" := "K=V" +:+ ch CR +:+ ch LF ]}
                    : gmap string string) !! ".env" = None)
    by reflexivity.
  assert (Hex : ({[ "env.example" := "K=V" +:+ ch CR +:+ ch LF ]}
                   : gmap string string) !! "env.example"
                = Some ("K=V" +:+ ch CR +:+ ch LF))
    by reflexivity.
  destruct (env_file_copies_template standins.host
              {[ "env.example" := "K=V" +:+ ch CR +:+ ch LF ]}
              ("K=V" +:+ ch CR +:+ ch LF) Henv Hex eq_refl
              (fun text => eq_refl)) as [Hcopy _].
  exact Hcopy.
Defined.

(** The set-up on a machine where a prompt file cannot be decoded: the
    exception leaves [main] after [pip] was run and [.env] was written. *)
Example setup_fails_late :
  (setup.main standins.host
     {[ "prompts/selection_prompt.txt" := ch "146"%char ]}).2
  = setup.Raised
      (Exception "UnicodeDecodeError"
         "'ascii' codec can't decode byte: ordinal not in range(128)")
  /\ (setup.main standins.host
        {[ "prompts/selection_prompt.txt" := ch "146"%char ]}).1.2 !! ".env"
     = Some setup.env_content
  /\ setup.ran_pip
       (setup.main standins.host
          {[ "prompts/selection_prompt.txt" := ch "146"%char ]}).1.1
     = true.
Proof. vm_compute. repeat split. Qed.

(** A template that cannot be decoded leaves an empty [.env]. *)
Example template_failure_leaves_empty_env :
  setup.create_env_file standins.host {[ "env.example" := ch "233"%char ]}
  = ([], <[".env" := EmptyString]> {[ "env.example" := ch "233"%char ]},
     setup.Raised
       (Exception "UnicodeDecodeError"
          "'ascii' codec can't decode byte: ordinal not in range(128)")).
Proof. reflexivity. Qed.
